(** * alx-polly: the poll server actions ([app/lib/actions/poll-actions.ts])

    A shallow embedding of the six server actions [createPoll],
    [getUserPolls], [getPollById], [submitVote], [deletePoll] and
    [updatePoll], together with the part of the Supabase client they call:
    the three tables [polls], [votes] and [profiles], the query builder
    ([insert], [select], [eq], [order], [single], [update], [delete]) and
    [auth.getUser].

    The auth context provider ([app/lib/context/auth-context.tsx]) and the
    admin page's [fetchAllPolls] and [handleDelete], which calls
    [deletePoll], follow the server actions.

    Every action is a function of the request's surroundings ([Env]: the
    answer of [auth.getUser], which storage requests fail and with what
    error, the values the database generates for new rows) and of the
    database contents; it returns the action's result, the database after the
    request and the list of storage requests it issued, in order. *)

From Stdlib Require Import String List ZArith Bool Arith Lia Sorted Permutation.
Import ListNotations.
Local Open Scope string_scope.
Local Open Scope list_scope.

(** ** Values exchanged with the client library *)

(** [error.code] and [error.message] of a Postgrest or auth error. *)
Record Error := { code : string; message : string }.

(** [{ data, error }] as every awaited query returns it. *)
Record Response (A : Type) := { data : option A; error : option Error }.
Arguments data {A} _.
Arguments error {A} _.

Module User.
Record t := { id : string }.
End User.

(** [{ data: { user }, error }] of [supabase.auth.getUser()]. *)
Record AuthResponse := { user : option User.t; userError : option Error }.

(** ** Rows of the three tables *)

Module Poll.
Record row := {
  id : string;
  user_id : string;
  question : string;
  options : list string;
  created_at : Z
}.
End Poll.

Module Vote.
Record row := {
  id : string;
  poll_id : string;
  user_id : option string;
  option_index : Z
}.
End Vote.

Module Profile.
Record row := { user_id : string; role : string }.
End Profile.

Record Database := {
  polls : list Poll.row;
  votes : list Vote.row;
  profiles : list Profile.row
}.

(** ** Storage requests and the request's surroundings *)

Inductive Table := Polls | Votes | Profiles.
Inductive Verb := Insert | Select | Update | Delete.

(** What an action does besides computing its result. *)
Inductive Event :=
| Storage (t : Table) (v : Verb)
| Revalidate (path : string).

Record Env := {
  getUser : AuthResponse;
  (** [fault t v = Some e]: the request [v] on table [t] is answered with
      the error [e] and leaves the table as it was. *)
  fault : Table -> Verb -> option Error;
  (** column defaults filled in by the database on insert *)
  generated_id : string;
  generated_at : Z
}.

Definition is_write (e : Event) : bool :=
  match e with
  | Storage _ Insert | Storage _ Update | Storage _ Delete => true
  | _ => false
  end.

(** ** The monad of server actions: reader of [Env], state [Database],
    writer of the issued requests *)

Definition Action (A : Type) : Type :=
  Env -> Database -> A * Database * list Event.

Definition ret {A} (a : A) : Action A := fun _ db => (a, db, []).

Definition bind {A B} (m : Action A) (k : A -> Action B) : Action B :=
  fun env db =>
    let '(a, db1, l1) := m env db in
    let '(b, db2, l2) := k a env db1 in
    (b, db2, l1 ++ l2).

Declare Scope action_scope.
Delimit Scope action_scope with action.
Notation "x <- m ;; k" := (bind m (fun x => k))
  (at level 61, m at next level, right associativity) : action_scope.
Notation "m ;; k" := (bind m (fun _ => k))
  (at level 61, right associativity) : action_scope.
Local Open Scope action_scope.

Definition result {A} (r : A * Database * list Event) : A := fst (fst r).
Definition database {A} (r : A * Database * list Event) : Database := snd (fst r).
Definition issued {A} (r : A * Database * list Event) : list Event := snd r.

(** [await supabase.auth.getUser()] *)
Definition auth_getUser : Action AuthResponse :=
  fun env db => (getUser env, db, []).

(** [revalidatePath(path)] *)
Definition revalidatePath (path : string) : Action unit :=
  fun _ db => (tt, db, [Revalidate path]).

(** One awaited storage request: it is answered with the fault of the
    surroundings when there is one, and runs on the tables otherwise. *)
Definition request {A} (t : Table) (v : Verb)
    (run : Env -> Database -> A * Database) : Action (Response A) :=
  fun env db =>
    match fault env t v with
    | Some e => ({| data := None; error := Some e |}, db, [Storage t v])
    | None =>
        let '(a, db') := run env db in
        ({| data := Some a; error := None |}, db', [Storage t v])
    end.

(** ** Query builder *)

(** The error of [.single()] when the result is not exactly one row. *)
Definition PGRST116 : Error :=
  {| code := "PGRST116";
     message := "JSON object requested, multiple (or no) rows returned" |}.

Definition single {R} (r : Response (list R)) : Response R :=
  match error r with
  | Some e => {| data := None; error := Some e |}
  | None =>
      match data r with
      | Some [x] => {| data := Some x; error := None |}
      | _ => {| data := None; error := Some PGRST116 |}
      end
  end.

(** [.eq(column, value)] on a text column and on a nullable text column. *)
Definition eq_text {R} (column : R -> string) (value : string) (r : R) : bool :=
  column r =? value.

Definition eq_nullable {R} (column : R -> option string) (value : string)
    (r : R) : bool :=
  match column r with
  | Some x => x =? value
  | None => false
  end.

(** A row is selected when it passes every [.eq] of the chain. *)
Definition matches {R} (filters : list (R -> bool)) (r : R) : bool :=
  forallb (fun f => f r) filters.

(** [.order("created_at", { ascending: false })] *)
Fixpoint insert_desc (p : Poll.row) (l : list Poll.row) : list Poll.row :=
  match l with
  | [] => [p]
  | q :: l' =>
      if (Poll.created_at q <? Poll.created_at p)%Z then p :: q :: l'
      else q :: insert_desc p l'
  end.

Definition order_created_at_desc (l : list Poll.row) : list Poll.row :=
  fold_right insert_desc [] l.

(** [from("polls").select(...)] with its [.eq] chain, projected by [column]. *)
Definition select_polls {C} (column : Poll.row -> C)
    (filters : list (Poll.row -> bool)) : Action (Response (list C)) :=
  request Polls Select
    (fun _ db => (map column (filter (matches filters) (polls db)), db)).

Definition select_polls_ordered (filters : list (Poll.row -> bool))
    : Action (Response (list Poll.row)) :=
  request Polls Select
    (fun _ db =>
       (order_created_at_desc (filter (matches filters) (polls db)), db)).

Definition select_votes {C} (column : Vote.row -> C)
    (filters : list (Vote.row -> bool)) : Action (Response (list C)) :=
  request Votes Select
    (fun _ db => (map column (filter (matches filters) (votes db)), db)).

Definition select_profiles {C} (column : Profile.row -> C)
    (filters : list (Profile.row -> bool)) : Action (Response (list C)) :=
  request Profiles Select
    (fun _ db => (map column (filter (matches filters) (profiles db)), db)).

Definition with_polls (db : Database) (l : list Poll.row) : Database :=
  {| polls := l; votes := votes db; profiles := profiles db |}.

Definition with_votes (db : Database) (l : list Vote.row) : Database :=
  {| polls := polls db; votes := l; profiles := profiles db |}.

(** [from("polls").insert([{ user_id, question, options }])]: [id] and
    [created_at] are column defaults. *)
Definition insert_poll (user_id question : string) (options : list string)
    : Action (Response unit) :=
  request Polls Insert
    (fun env db =>
       (tt, with_polls db
              (polls db ++
               [{| Poll.id := generated_id env;
                   Poll.user_id := user_id;
                   Poll.question := question;
                   Poll.options := options;
                   Poll.created_at := generated_at env |}]))).

(** [from("votes").insert([{ poll_id, user_id, option_index }])] *)
Definition insert_vote (poll_id : string) (user_id : option string)
    (option_index : Z) : Action (Response unit) :=
  request Votes Insert
    (fun env db =>
       (tt, with_votes db
              (votes db ++
               [{| Vote.id := generated_id env;
                   Vote.poll_id := poll_id;
                   Vote.user_id := user_id;
                   Vote.option_index := option_index |}]))).

(** [from("polls").delete()] with its [.eq] chain *)
Definition delete_polls (filters : list (Poll.row -> bool))
    : Action (Response unit) :=
  request Polls Delete
    (fun _ db =>
       (tt, with_polls db
              (filter (fun r => negb (matches filters r)) (polls db)))).

(** [from("polls").update({ question, options })]: a query under
    construction, to which [.eq] adds filters until it is awaited. *)
Record UpdateQuery := {
  set_question : string;
  set_options : list string;
  filters : list (Poll.row -> bool)
}.

Definition update_polls (question : string) (options : list string)
    : UpdateQuery :=
  {| set_question := question; set_options := options; filters := [] |}.

Definition and_eq (q : UpdateQuery) (f : Poll.row -> bool) : UpdateQuery :=
  {| set_question := set_question q;
     set_options := set_options q;
     filters := filters q ++ [f] |}.

Definition apply_update (q : UpdateQuery) (r : Poll.row) : Poll.row :=
  if matches (filters q) r then
    {| Poll.id := Poll.id r;
       Poll.user_id := Poll.user_id r;
       Poll.question := set_question q;
       Poll.options := set_options q;
       Poll.created_at := Poll.created_at r |}
  else r.

Definition await_update (q : UpdateQuery) : Action (Response unit) :=
  request Polls Update
    (fun _ db => (tt, with_polls db (map (apply_update q) (polls db)))).

(** ** FormData *)

(** The entries of the form in order; a name may occur several times. The
    forms of the application hold text entries only. *)
Definition FormData := list (string * string).

Definition get (name : string) (formData : FormData) : option string :=
  option_map snd (find (fun e => fst e =? name) formData).

Definition getAll (name : string) (formData : FormData) : list string :=
  map snd (filter (fun e => fst e =? name) formData).

(** JavaScript truthiness of a string ([Boolean(s)]): every string but the
    empty one. *)
Definition truthy (s : string) : bool := negb (s =? "").

(** ** The server actions *)

(** The result [{ error }] of an action is its [error]: [None] is [null]. *)

Definition createPoll (formData : FormData) : Action (option string) :=
  let question := get "question" formData in
  let options := filter truthy (getAll "options" formData) in
  match question with
  | None => ret (Some "Please provide a question and at least two options.")
  | Some question =>
    if negb (truthy question) || (length options <? 2)%nat then
      ret (Some "Please provide a question and at least two options.")
    else
      auth <- auth_getUser ;;
      match userError auth with
      | Some userError => ret (Some (message userError))
      | None =>
        match user auth with
        | None => ret (Some "You must be logged in to create a poll.")
        | Some user =>
          res <- insert_poll (User.id user) question options ;;
          match error res with
          | Some e => ret (Some (message e))
          | None => revalidatePath "/polls" ;; ret None
          end
        end
      end
  end.

(** The result is [{ polls, error }]. *)
Definition getUserPolls : Action (list Poll.row * option string) :=
  auth <- auth_getUser ;;
  match user auth with
  | None => ret ([], Some "Not authenticated")
  | Some user =>
    res <- select_polls_ordered [eq_text Poll.user_id (User.id user)] ;;
    match error res with
    | Some e => ret ([], Some (message e))
    | None =>
      ret (match data res with Some rows => rows | None => [] end, None)
    end
  end.

(** The result is [{ poll, error }]. *)
Definition getPollById (id : string)
    : Action (option Poll.row * option string) :=
  rows <- select_polls (fun r => r) [eq_text Poll.id id] ;;
  let res := single rows in
  match error res with
  | Some e => ret (None, Some (message e))
  | None => ret (data res, None)
  end.

Definition submitVote (pollId : string) (optionIndex : Z)
    : Action (option string) :=
  auth <- auth_getUser ;;
  (* the block under [if (user)]: [Some msg] when it returns [{ error: msg }] *)
  returned <-
    match user auth with
    | Some user =>
      rows <- select_votes Vote.id
                [eq_text Vote.poll_id pollId;
                 eq_nullable Vote.user_id (User.id user)] ;;
      let res := single rows in
      match data res with
      | Some existingVote => ret (Some "You have already voted on this poll.")
      | None =>
        match error res with
        | Some voteError =>
          if negb (code voteError =? "PGRST116")
          then ret (Some (message voteError))
          else ret None
        | None => ret None
        end
      end
    | None => ret None
    end ;;
  match returned with
  | Some msg => ret (Some msg)
  | None =>
    res <- insert_vote pollId (option_map User.id (user auth)) optionIndex ;;
    match error res with
    | Some e => ret (Some (message e))
    | None => ret None
    end
  end.

Definition deletePoll (id : string) : Action (option string) :=
  auth <- auth_getUser ;;
  match userError auth with
  | Some userError => ret (Some (message userError))
  | None =>
    match user auth with
    | None => ret (Some "You must be logged in to delete a poll.")
    | Some user =>
      rows <- select_polls Poll.user_id [eq_text Poll.id id] ;;
      let res := single rows in
      match error res, data res with
      | None, Some poll_user_id =>
        (* the block under [if (poll.user_id !== user.id)] *)
        denied <-
          (if negb (poll_user_id =? User.id user) then
             prows <- select_profiles Profile.role
                        [eq_text Profile.user_id (User.id user)] ;;
             let pres := single prows in
             match error pres, data pres with
             | None, Some role =>
               if negb (role =? "admin")
               then ret (Some "You are not authorized to delete this poll.")
               else ret None
             | _, _ => ret (Some "You are not authorized to delete this poll.")
             end
           else ret None) ;;
        match denied with
        | Some msg => ret (Some msg)
        | None =>
          dres <- delete_polls [eq_text Poll.id id] ;;
          match error dres with
          | Some e => ret (Some (message e))
          | None => revalidatePath "/polls" ;; ret None
          end
        end
      | _, _ =>
        ret (Some "Poll not found or you don't have permission to delete it.")
      end
    end
  end.

Definition updatePoll (pollId : string) (formData : FormData)
    : Action (option string) :=
  let question := get "question" formData in
  let options := filter truthy (getAll "options" formData) in
  match question with
  | None => ret (Some "Please provide a question and at least two options.")
  | Some question =>
    if negb (truthy question) || (length options <? 2)%nat then
      ret (Some "Please provide a question and at least two options.")
    else
      auth <- auth_getUser ;;
      match userError auth with
      | Some userError => ret (Some (message userError))
      | None =>
        match user auth with
        | None => ret (Some "You must be logged in to update a poll.")
        | Some user =>
          rows <- select_polls Poll.user_id [eq_text Poll.id pollId] ;;
          let res := single rows in
          match error res, data res with
          | None, Some poll_user_id =>
            let isOwner := poll_user_id =? User.id user in
            isAdmin <-
              (if negb isOwner then
                 prows <- select_profiles Profile.role
                            [eq_text Profile.user_id (User.id user)] ;;
                 let pres := single prows in
                 match error pres, data pres with
                 | None, Some role => ret (role =? "admin")
                 | _, _ => ret false
                 end
               else ret false) ;;
            if negb isOwner && negb isAdmin then
              ret (Some "You are not authorized to update this poll.")
            else
              let updateQuery :=
                and_eq (update_polls question options)
                       (eq_text Poll.id pollId) in
              let updateQuery :=
                if negb isAdmin
                then and_eq updateQuery (eq_text Poll.user_id (User.id user))
                else updateQuery in
              ures <- await_update updateQuery ;;
              match error ures with
              | Some e => ret (Some (message e))
              | None => ret None
              end
          | _, _ =>
            ret (Some "Poll not found or you don't have permission to update it.")
          end
        end
      end
  end.

(** ** The auth context ([app/lib/context/auth-context.tsx]) *)

Module Session.
Record t := { user : User.t }.
End Session.

Module AuthContext.
(** The value the provider hands to the components below it. *)
Record value := {
  session : option Session.t;
  user : option User.t;
  loading : bool
}.
End AuthContext.

(** [AuthProvider]: its three pieces of state and the [mounted] flag of its
    effect, which is also when the listener is subscribed. *)
Record AuthProvider := {
  context : AuthContext.value;
  mounted : bool
}.

(** The state of the first render. *)
Definition AuthProvider_mount : AuthProvider :=
  {| context :=
       {| AuthContext.session := None;
          AuthContext.user := None;
          AuthContext.loading := true |};
     mounted := true |}.

(** What happens to a mounted provider. *)
Inductive AuthEvent :=
| GetUserResolved (response : AuthResponse)
| AuthStateChange (session : option Session.t)
| Cleanup.

Definition AuthProvider_on (p : AuthProvider) (e : AuthEvent) : AuthProvider :=
  match e with
  | GetUserResolved response =>
      (* the end of [getUser], under [if (mounted)] *)
      if mounted p then
        {| context :=
             {| AuthContext.session := None;
                AuthContext.user := user response;
                AuthContext.loading := false |};
           mounted := mounted p |}
      else p
  | AuthStateChange session =>
      (* the listener of [onAuthStateChange], until it is unsubscribed *)
      if mounted p then
        {| context :=
             {| AuthContext.session := session;
                AuthContext.user := option_map Session.user session;
                AuthContext.loading := AuthContext.loading (context p) |};
           mounted := mounted p |}
      else p
  | Cleanup =>
      (* the function the effect returns *)
      {| context := context p; mounted := false |}
  end.

(** ** The admin page: its state, [fetchAllPolls] and [handleDelete] *)

Module AdminPage.
End AdminPage.




(** * Vocabulary of the statements *)

(** ** Sample data: one poll of user [u1], an administrator [a1] *)

Module Sample.

Definition no_fault : Table -> Verb -> option Error := fun _ _ => None.

Definition as_user (uid : option string) : Env :=
  {| getUser :=
       {| user := option_map (fun i => {| User.id := i |}) uid;
          userError := None |};
     fault := no_fault;
     generated_id := "g1";
     generated_at := 100 |}.

Definition p1 : Poll.row :=
  {| Poll.id := "p1";
     Poll.user_id := "u1";
     Poll.question := "Best color?";
     Poll.options := ["Red"; "Blue"];
     Poll.created_at := 1 |}.

Definition db0 : Database :=
  {| polls := [p1];
     votes := [];
     profiles := [{| Profile.user_id := "a1"; Profile.role := "admin" |}] |}.

Definition form (question : string) (options : list string) : FormData :=
  ("question", question) :: map (fun o => ("options", o)) options.

End Sample.

(** ** Rows the actions ask for *)

(** The rows of [polls] with a given [id], and the caller's rows of
    [profiles]. *)
Definition polls_with_id (db : Database) (id : string) : list Poll.row :=
  filter (fun r => Poll.id r =? id) (polls db).

Definition profiles_of (db : Database) (uid : string) : list Profile.row :=
  filter (fun r => Profile.user_id r =? uid) (profiles db).

(** The votes of a user on a poll. *)
Definition votes_of (db : Database) (pollId uid : string) : list Vote.row :=
  filter (fun v => (Vote.poll_id v =? pollId) && eq_nullable Vote.user_id uid v)
         (votes db).

(** The role claim of a caller, as [deletePoll] and [updatePoll] obtain it:
    the [role] of the caller's one row of [profiles]; there is none when that
    request fails or does not find exactly one row. *)
Definition role_claim (env : Env) (db : Database) (uid : string)
    : option string :=
  match fault env Profiles Select with
  | Some _ => None
  | None =>
      match profiles_of db uid with
      | [p] => Some (Profile.role p)
      | _ => None
      end
  end.

(** ** Forms *)

(** The form passes the check at the head of [createPoll] and [updatePoll]:
    the question is there and not empty, and at least two options are not
    empty. *)
Definition valid_form (formData : FormData) : Prop :=
  (exists q, get "question" formData = Some q /\ q <> "") /\
  2 <= length (filter truthy (getAll "options" formData)).

(** The form fails the check at the head of [createPoll] and [updatePoll]:
    no question or an empty one, or fewer than two options that are not
    empty. *)
Definition invalid_form (formData : FormData) : Prop :=
  get "question" formData = None \/
  get "question" formData = Some "" \/
  length (filter truthy (getAll "options" formData)) < 2.

(** ** Votes *)

(** The row [submitVote] asks the database to insert. *)
Definition cast_vote (env : Env) (pollId : string) (optionIndex : Z)
    : Vote.row :=
  {| Vote.id := generated_id env;
     Vote.poll_id := pollId;
     Vote.user_id := option_map User.id (user (getUser env));
     Vote.option_index := optionIndex |}.

(** The end of [submitVote], from the insert on. *)
Definition insert_outcome (env : Env) (db : Database) (pollId : string)
    (optionIndex : Z) (before : list Event)
    : option string * Database * list Event :=
  match fault env Votes Insert with
  | Some e => (Some (message e), db, before ++ [Storage Votes Insert])
  | None =>
      (None, with_votes db (votes db ++ [cast_vote env pollId optionIndex]),
       before ++ [Storage Votes Insert])
  end.

(** A uniqueness violation as Postgres reports it. *)
Definition unique_violation : Error :=
  {| code := "23505";
     message := "duplicate key value violates unique constraint" |}.

(** User [u2] has no vote on [p1] that the check could see, and the insert
    is answered with a uniqueness violation. *)
Definition racing_env : Env :=
  {| getUser := {| user := Some {| User.id := "u2" |}; userError := None |};
     fault := fun t v =>
       match t, v with
       | Votes, Insert => Some unique_violation
       | _, _ => None
       end;
     generated_id := "g2";
     generated_at := 101 |}.

(** Requests served one after the other, each in its own surroundings. *)
Fixpoint submitVotes (requests : list (Env * string * Z)) (db : Database)
    : list (option string) * Database * list Event :=
  match requests with
  | [] => ([], db, [])
  | (env, pollId, optionIndex) :: rest =>
      let '(r, db1, l1) := submitVote pollId optionIndex env db in
      let '(rs, db2, l2) := submitVotes rest db1 in
      (r :: rs, db2, l1 ++ l2)
  end.

Definition anonymous (request : Env * string * Z) : Prop :=
  user (getUser (fst (fst request))) = None.

Definition insert_works (request : Env * string * Z) : Prop :=
  fault (fst (fst request)) Votes Insert = None.

Definition vote_of_request (request : Env * string * Z) : Vote.row :=
  cast_vote (fst (fst request)) (snd (fst request)) (snd request).

Definition one_vote_per_voter (db : Database) : Prop :=
  forall pollId uid, length (votes_of db pollId uid) <= 1.

(** A fault of the surroundings on the request that looks for an earlier
    vote is a failure of the request; [PGRST116] is what [.single()] itself
    answers from the number of rows. *)
Definition genuine_faults (env : Env) : Prop :=
  forall e, fault env Votes Select = Some e -> code e <> "PGRST116".

Definition by_voter (pollId uid : string) (v : Vote.row) : bool :=
  (Vote.poll_id v =? pollId) && eq_nullable Vote.user_id uid v.

(** ** Sequences of requests *)

(** The requests a client can send. *)
Inductive ServerAction :=
| CreatePoll (formData : FormData)
| GetUserPolls
| GetPollById (id : string)
| SubmitVote (pollId : string) (optionIndex : Z)
| DeletePoll (id : string)
| UpdatePoll (pollId : string) (formData : FormData).

Definition serve (a : ServerAction) (env : Env) (db : Database) : Database :=
  match a with
  | CreatePoll formData => database (createPoll formData env db)
  | GetUserPolls => database (getUserPolls env db)
  | GetPollById id => database (getPollById id env db)
  | SubmitVote pollId optionIndex =>
      database (submitVote pollId optionIndex env db)
  | DeletePoll id => database (deletePoll id env db)
  | UpdatePoll pollId formData => database (updatePoll pollId formData env db)
  end.

(** The databases that requests served one after the other lead to, from
    one without votes. *)
Inductive reachable : Database -> Prop :=
| reachable_init (db : Database) : votes db = [] -> reachable db
| reachable_serve (a : ServerAction) (env : Env) (db : Database) :
    reachable db -> genuine_faults env -> reachable (serve a env db).

(** Scenario E: a first vote of [u2] on [p1], then a second one. *)
Definition after_first_vote : Database :=
  database (submitVote "p1" 0 (Sample.as_user (Some "u2")) Sample.db0).

(** ** Polls *)

(** The row [createPoll] asks the database to insert for [caller]. *)
Definition created_poll (env : Env) (caller : User.t) (formData : FormData)
    : Poll.row :=
  {| Poll.id := generated_id env;
     Poll.user_id := User.id caller;
     Poll.question :=
       match get "question" formData with Some q => q | None => "" end;
     Poll.options := filter truthy (getAll "options" formData);
     Poll.created_at := generated_at env |}.

(** The two queries [updatePoll] can await. *)
Definition update_by_id (pollId question : string) (options : list string)
    : UpdateQuery :=
  and_eq (update_polls question options) (eq_text Poll.id pollId).

Definition update_by_id_and_owner (pollId question : string)
    (options : list string) (uid : string) : UpdateQuery :=
  and_eq (update_by_id pollId question options) (eq_text Poll.user_id uid).

(** How a row of [polls] may differ after [updatePoll pollId formData]. *)
Definition only_question_and_options (pollId : string) (formData : FormData)
    (before after : Poll.row) : Prop :=
  Poll.id after = Poll.id before /\
  Poll.user_id after = Poll.user_id before /\
  Poll.created_at after = Poll.created_at before /\
  (Poll.id before <> pollId -> after = before) /\
  (after = before \/
   get "question" formData = Some (Poll.question after) /\
   Poll.options after = filter truthy (getAll "options" formData)).

(** The caller's polls, newest first. *)
Definition own_polls (db : Database) (uid : string) : list Poll.row :=
  order_created_at_desc (filter (fun r => Poll.user_id r =? uid) (polls db)).

(** ** Requests of several kinds, one after the other *)

Fixpoint serve_all (requests : list (ServerAction * Env)) (db : Database)
    : Database :=
  match requests with
  | [] => db
  | (a, env) :: rest => serve_all rest (serve a env db)
  end.

(** ** Polls as the forms leave them *)

(** A poll that passed the form check: a question and at least two
    options, none of them empty. *)
Definition well_formed_poll (p : Poll.row) : Prop :=
  Poll.question p <> "" /\
  2 <= length (Poll.options p) /\
  Forall (fun o => o <> "") (Poll.options p).

(** The polls that do not belong to the caller: all of them when there is
    no caller. *)
Definition others_polls (caller : option User.t) (db : Database)
    : list Poll.row :=
  filter (fun r =>
            match caller with
            | Some u => negb (Poll.user_id r =? User.id u)
            | None => true
            end) (polls db).

(** The caller of the request, if any, has no [admin] role claim. *)
Definition not_admin (env : Env) (db : Database) : Prop :=
  forall u, user (getUser env) = Some u ->
            role_claim env db (User.id u) <> Some "admin".

(** ** The auth provider after a sequence of events *)

Definition AuthProvider_after (events : list AuthEvent) : AuthProvider :=
  fold_left AuthProvider_on events AuthProvider_mount.

(** ** The admin page after a sequence of deletions *)



(** * Properties *)

(** ** What the queries return *)

Lemma matches_one {R} (f : R -> bool) (r : R) : matches [f] r = f r.
Proof. unfold matches. simpl. apply andb_true_r. Qed.

Lemma matches_two {R} (f g : R -> bool) (r : R) :
  matches [f; g] r = f r && g r.
Proof. unfold matches. simpl. now rewrite andb_true_r. Qed.

Lemma filter_matches_one {R} (f : R -> bool) (l : list R) :
  filter (matches [f]) l = filter f l.
Proof. apply filter_ext. intros r. apply matches_one. Qed.

Lemma select_poll_owner (env : Env) (db : Database) (id : string) :
  fault env Polls Select = None ->
  select_polls Poll.user_id [eq_text Poll.id id] env db =
  ({| data := Some (map Poll.user_id (polls_with_id db id)); error := None |},
   db, [Storage Polls Select]).
Proof.
  intros Hf. unfold select_polls, request. rewrite Hf.
  now rewrite filter_matches_one.
Qed.

Lemma select_poll_owner_fault (env : Env) (db : Database) (id : string) e :
  fault env Polls Select = Some e ->
  select_polls Poll.user_id [eq_text Poll.id id] env db =
  ({| data := None; error := Some e |}, db, [Storage Polls Select]).
Proof. intros Hf. unfold select_polls, request. now rewrite Hf. Qed.

Lemma select_role (env : Env) (db : Database) (uid : string) :
  fault env Profiles Select = None ->
  select_profiles Profile.role [eq_text Profile.user_id uid] env db =
  ({| data := Some (map Profile.role (profiles_of db uid)); error := None |},
   db, [Storage Profiles Select]).
Proof.
  intros Hf. unfold select_profiles, request. rewrite Hf.
  now rewrite filter_matches_one.
Qed.

Lemma select_existing_vote (env : Env) (db : Database) (pollId uid : string) :
  fault env Votes Select = None ->
  select_votes Vote.id
    [eq_text Vote.poll_id pollId; eq_nullable Vote.user_id uid] env db =
  ({| data := Some (map Vote.id (votes_of db pollId uid)); error := None |},
   db, [Storage Votes Select]).
Proof.
  intros Hf. unfold select_votes, request. rewrite Hf.
  unfold votes_of.
  rewrite (filter_ext _ _ (matches_two _ _)). reflexivity.
Qed.

Lemma truthy_true (s : string) : truthy s = true <-> s <> "".
Proof.
  unfold truthy. rewrite negb_true_iff. split.
  - intros H E. subst. discriminate.
  - intros H. apply String.eqb_neq. exact H.
Qed.

Lemma valid_form_check (formData : FormData) :
  valid_form formData ->
  exists q, get "question" formData = Some q /\
    negb (truthy q) ||
    (length (filter truthy (getAll "options" formData)) <? 2)%nat = false.
Proof.
  intros [[q [Hq Hne]] Hlen]. exists q. split; [exact Hq|].
  apply orb_false_iff. split.
  - apply negb_false_iff. now apply truthy_true.
  - apply Nat.ltb_ge. exact Hlen.
Qed.

(** ** Authorization of the mutating actions *)

Ltac pass_input_check Hv :=
  let q := fresh "q" in
  let Hq := fresh "Hq" in
  let Hc := fresh "Hc" in
  destruct (valid_form_check _ Hv) as [q [Hq Hc]];
  rewrite Hq, Hc.

Ltac run_action := unfold bind, auth_getUser, ret, revalidatePath; simpl.

(** C1. For a caller [i] and the existing poll [p] with the requested id,
    [updatePoll] (on a form that passes its input check) and [deletePoll]
    issue their write on [polls] if and only if [i] owns [p] or the role
    claim of [i] is [admin]; otherwise they answer "not authorized" and leave
    the database as it was. Without a caller they answer with the
    authentication error (the one of [auth.getUser] when it reports one,
    "You must be logged in ..." otherwise) and issue no storage request. *)
Theorem write_authorization (env : Env) (db : Database) (pollId : string)
    (formData : FormData) (p : Poll.row) :
  fault env Polls Select = None ->
  polls_with_id db pollId = [p] ->
  valid_form formData ->
  match user (getUser env), userError (getUser env) with
  | Some i, None =>
      let allowed :=
        User.id i = Poll.user_id p \/
        role_claim env db (User.id i) = Some "admin" in
      (In (Storage Polls Update) (issued (updatePoll pollId formData env db))
       <-> allowed) /\
      (In (Storage Polls Delete) (issued (deletePoll pollId env db))
       <-> allowed) /\
      (~ allowed ->
       result (updatePoll pollId formData env db) =
         Some "You are not authorized to update this poll." /\
       database (updatePoll pollId formData env db) = db /\
       result (deletePoll pollId env db) =
         Some "You are not authorized to delete this poll." /\
       database (deletePoll pollId env db) = db)
  | None, None =>
      updatePoll pollId formData env db =
        (Some "You must be logged in to update a poll.", db, []) /\
      deletePoll pollId env db =
        (Some "You must be logged in to delete a poll.", db, [])
  | _, Some e =>
      updatePoll pollId formData env db = (Some (message e), db, []) /\
      deletePoll pollId env db = (Some (message e), db, [])
  end.
Proof.
  intros Hf Hp Hv.
  unfold updatePoll, deletePoll. pass_input_check Hv.
  run_action.
  destruct (userError (getUser env)) as [e|]; destruct (user (getUser env)) as [i|];
    simpl; try (split; reflexivity).
  rewrite !select_poll_owner by assumption. rewrite Hp. simpl.
  unfold role_claim.
  destruct (Poll.user_id p =? User.id i) eqn:Ho; simpl.
  - apply String.eqb_eq in Ho.
    unfold await_update, delete_polls, request.
    destruct (fault env Polls Update), (fault env Polls Delete); simpl;
      intuition congruence.
  - apply String.eqb_neq in Ho.
    destruct (fault env Profiles Select) eqn:Hpf; simpl.
    + unfold select_profiles, request. rewrite Hpf. simpl.
      intuition; try congruence; try discriminate.
    + rewrite !select_role by assumption.
      destruct (profiles_of db (User.id i)) as [|r [|r' l]]; simpl.
      * intuition; try congruence; try discriminate.
      * destruct (Profile.role r =? "admin") eqn:Hr; simpl.
        -- apply String.eqb_eq in Hr.
           unfold await_update, delete_polls, request.
           destruct (fault env Polls Update), (fault env Polls Delete); simpl;
             rewrite Hr; intuition congruence.
        -- apply String.eqb_neq in Hr.
           intuition; try congruence; try discriminate.
      * intuition; try congruence; try discriminate.
Qed.

Lemma sample_form_valid : valid_form (Sample.form "Q" ["a"; "b"]).
Proof.
  split.
  - exists "Q". split; [reflexivity | discriminate].
  - simpl. lia.
Qed.

Lemma write_authorization_witness :
  fault (Sample.as_user (Some "a1")) Polls Select = None /\
  polls_with_id Sample.db0 "p1" = [Sample.p1] /\
  valid_form (Sample.form "Q" ["a"; "b"]) /\
  In (Storage Polls Update)
     (issued (updatePoll "p1" (Sample.form "Q" ["a"; "b"])
                (Sample.as_user (Some "a1")) Sample.db0)) /\
  In (Storage Polls Delete)
     (issued (deletePoll "p1" (Sample.as_user (Some "a1")) Sample.db0)).
Proof.
  pose proof (write_authorization (Sample.as_user (Some "a1")) Sample.db0 "p1"
                (Sample.form "Q" ["a"; "b"]) Sample.p1
                eq_refl eq_refl sample_form_valid) as H.
  simpl in H. destruct H as [Hu [Hd _]].
  split; [reflexivity|]. split; [reflexivity|].
  split; [exact sample_form_valid|]. split.
  - apply Hu. right. reflexivity.
  - apply Hd. right. reflexivity.
Defined.

(** Whatever the form, a request without a caller changes nothing and
    issues no storage request. *)
Lemma absent_identity_no_request (env : Env) (db : Database)
    (pollId : string) (formData : FormData) :
  user (getUser env) = None ->
  (exists msg, updatePoll pollId formData env db = (Some msg, db, [])) /\
  (exists msg, deletePoll pollId env db = (Some msg, db, [])).
Proof.
  intros Hu. unfold updatePoll, deletePoll. run_action.
  split.
  - destruct (get "question" formData) as [q|]; [|eauto].
    destruct (negb (truthy q) || _); [eauto|].
    rewrite Hu. destruct (userError (getUser env)); simpl; eauto.
  - rewrite Hu. destruct (userError (getUser env)); simpl; eauto.
Qed.

(** ** Voting *)

Lemma submitVote_anonymous (env : Env) (db : Database) (pollId : string)
    (optionIndex : Z) :
  user (getUser env) = None ->
  submitVote pollId optionIndex env db =
  insert_outcome env db pollId optionIndex [].
Proof.
  intros Hu. unfold submitVote, insert_outcome, cast_vote. run_action.
  rewrite Hu. simpl. unfold insert_vote, request.
  destruct (fault env Votes Insert); reflexivity.
Qed.

Lemma submitVote_authenticated (env : Env) (db : Database) (pollId : string)
    (optionIndex : Z) (u : User.t) :
  user (getUser env) = Some u ->
  submitVote pollId optionIndex env db =
  match fault env Votes Select with
  | Some e =>
      if code e =? "PGRST116"
      then insert_outcome env db pollId optionIndex [Storage Votes Select]
      else (Some (message e), db, [Storage Votes Select])
  | None =>
      match votes_of db pollId (User.id u) with
      | [_] => (Some "You have already voted on this poll.", db,
                [Storage Votes Select])
      | _ => insert_outcome env db pollId optionIndex [Storage Votes Select]
      end
  end.
Proof.
  intros Hu. unfold submitVote, insert_outcome, cast_vote. run_action.
  rewrite Hu. simpl.
  destruct (fault env Votes Select) as [e|] eqn:Hs.
  - unfold select_votes, request. rewrite Hs. simpl.
    destruct (code e =? "PGRST116"); simpl; [|reflexivity].
    unfold insert_vote, request.
    destruct (fault env Votes Insert); reflexivity.
  - rewrite select_existing_vote by assumption.
    destruct (votes_of db pollId (User.id u)) as [|v [|v' l]]; simpl;
      try reflexivity;
      unfold insert_vote, request;
      destruct (fault env Votes Insert); reflexivity.
Qed.

(** C2, as the code has it. [submitVote] never reads [polls] and never
    looks at [optionIndex]: whenever the two requests on [votes] do not fail
    and the caller is anonymous or has no vote on the poll yet, it succeeds
    for every integer [optionIndex], inside or outside the bounds of the
    poll's options, and stores a vote that carries it. *)
Theorem submitVote_any_option_index (env : Env) (db : Database)
    (pollId : string) (optionIndex : Z) :
  fault env Votes Select = None ->
  fault env Votes Insert = None ->
  (forall u, user (getUser env) = Some u ->
             votes_of db pollId (User.id u) = []) ->
  result (submitVote pollId optionIndex env db) = None /\
  votes (database (submitVote pollId optionIndex env db)) =
    votes db ++ [cast_vote env pollId optionIndex] /\
  ~ In (Storage Polls Select) (issued (submitVote pollId optionIndex env db)).
Proof.
  intros Hs Hi Hnone.
  destruct (user (getUser env)) as [u|] eqn:Hu.
  - rewrite (submitVote_authenticated _ _ _ _ u Hu), Hs, (Hnone u eq_refl).
    unfold insert_outcome. rewrite Hi. simpl.
    repeat split. intros [H|[H|[]]]; discriminate.
  - rewrite (submitVote_anonymous _ _ _ _ Hu).
    unfold insert_outcome. rewrite Hi. simpl.
    repeat split. intros [H|[]]; discriminate.
Qed.

Lemma submitVote_any_option_index_witness :
  fault (Sample.as_user (Some "u2")) Votes Select = None /\
  fault (Sample.as_user (Some "u2")) Votes Insert = None /\
  result (submitVote "p1" (-1) (Sample.as_user (Some "u2")) Sample.db0) = None.
Proof.
  split; [reflexivity|]. split; [reflexivity|].
  apply (submitVote_any_option_index (Sample.as_user (Some "u2")) Sample.db0
           "p1" (-1) eq_refl eq_refl).
  intros u Hu. reflexivity.
Defined.

(** C2, as stated, fails: poll [p1] has two options, and the anonymous vote
    for option index 7 succeeds and is stored. *)
Lemma submitVote_out_of_bounds_accepted :
  let r := submitVote "p1" 7 (Sample.as_user None) Sample.db0 in
  polls_with_id Sample.db0 "p1" = [Sample.p1] /\
  length (Poll.options Sample.p1) = 2 /\
  ~ (result r = None <->
     (0 <= 7 < Z.of_nat (length (Poll.options Sample.p1)))%Z) /\
  result r = None /\
  map Vote.option_index (votes (database r)) = [7%Z].
Proof.
  simpl. repeat split; try reflexivity.
  intros [H _]. specialize (H eq_refl). lia.
Qed.

(** C4, as the code has it. When the insert of the vote fails, whatever
    the storage error, a uniqueness violation included, [submitVote] answers
    with the message of that error as it is, and stores nothing. *)
Theorem submitVote_insert_error_propagated (env : Env) (db : Database)
    (pollId : string) (optionIndex : Z) (e : Error) :
  fault env Votes Insert = Some e ->
  In (Storage Votes Insert) (issued (submitVote pollId optionIndex env db)) ->
  result (submitVote pollId optionIndex env db) = Some (message e) /\
  database (submitVote pollId optionIndex env db) = db.
Proof.
  intros Hi.
  destruct (user (getUser env)) as [u|] eqn:Hu.
  - rewrite (submitVote_authenticated _ _ _ _ u Hu).
    unfold insert_outcome. rewrite Hi.
    destruct (fault env Votes Select) as [e'|].
    + destruct (code e' =? "PGRST116"); simpl.
      * intros _. split; reflexivity.
      * intros [H|[]]. discriminate.
    + destruct (votes_of db pollId (User.id u)) as [|v [|v' l]]; simpl;
        try (intros _; split; reflexivity).
      intros [H|[]]. discriminate.
  - rewrite (submitVote_anonymous _ _ _ _ Hu).
    unfold insert_outcome. rewrite Hi. simpl. intros _. split; reflexivity.
Qed.

Lemma submitVote_insert_error_propagated_witness :
  fault racing_env Votes Insert = Some unique_violation /\
  In (Storage Votes Insert)
     (issued (submitVote "p1" 0 racing_env Sample.db0)) /\
  result (submitVote "p1" 0 racing_env Sample.db0) =
    Some "duplicate key value violates unique constraint".
Proof.
  assert (H : In (Storage Votes Insert)
                 (issued (submitVote "p1" 0 racing_env Sample.db0))).
  { simpl. right. left. reflexivity. }
  split; [reflexivity|]. split; [exact H|].
  exact (proj1 (submitVote_insert_error_propagated racing_env Sample.db0
                  "p1" 0 unique_violation eq_refl H)).
Defined.

(** C4, as stated, fails: the caller gets the storage error's own message,
    not the answer of the duplicate-vote check. *)
Lemma submitVote_conflict_not_mapped :
  fault racing_env Votes Insert = Some unique_violation /\
  result (submitVote "p1" 0 racing_env Sample.db0) =
    Some (message unique_violation) /\
  result (submitVote "p1" 0 racing_env Sample.db0) <>
    Some "You have already voted on this poll.".
Proof.
  repeat split; try reflexivity. simpl. discriminate.
Qed.

(** C5. Any number of anonymous [submitVote] requests, on the same poll or
    not, all succeed when the insert does not fail: each one issues the
    insert alone, without the request that looks for an earlier vote, and
    each one's vote, with no voter, is appended to [votes]. *)
Theorem anonymous_votes_all_succeed (requests : list (Env * string * Z))
    (db : Database) :
  Forall anonymous requests ->
  Forall insert_works requests ->
  result (submitVotes requests db) = map (fun _ => None) requests /\
  votes (database (submitVotes requests db)) =
    votes db ++ map vote_of_request requests /\
  Forall (fun v => Vote.user_id v = None) (map vote_of_request requests) /\
  issued (submitVotes requests db) =
    map (fun _ => Storage Votes Insert) requests.
Proof.
  intros Ha Hi. revert db.
  induction requests as [|[[env pollId] optionIndex] rest IH]; intros db.
  - simpl. rewrite app_nil_r. repeat split. constructor.
  - inversion Ha as [|? ? Ha1 Ha2]; subst.
    inversion Hi as [|? ? Hi1 Hi2]; subst.
    unfold anonymous in Ha1. unfold insert_works in Hi1. simpl in Ha1, Hi1.
    simpl. rewrite (submitVote_anonymous _ _ _ _ Ha1).
    unfold insert_outcome. rewrite Hi1. simpl.
    specialize (IH Ha2 Hi2
      (with_votes db (votes db ++ [cast_vote env pollId optionIndex]))).
    destruct (submitVotes rest _) as [[rs db2] l2].
    unfold result, database, issued in *. simpl in *.
    destruct IH as [Hr [Hv [Hn Hl]]]. subst rs l2. rewrite Hv.
    rewrite <- app_assoc. simpl. repeat split.
    constructor; [|exact Hn].
    unfold vote_of_request, cast_vote. simpl. now rewrite Ha1.
Qed.

Lemma anonymous_votes_all_succeed_witness :
  let requests :=
    [(Sample.as_user None, "p1", 0%Z); (Sample.as_user None, "p1", 1%Z);
     (Sample.as_user None, "p1", 0%Z)] in
  Forall anonymous requests /\
  Forall insert_works requests /\
  result (submitVotes requests Sample.db0) = [None; None; None].
Proof.
  assert (Ha : Forall anonymous
    [(Sample.as_user None, "p1", 0%Z); (Sample.as_user None, "p1", 1%Z);
     (Sample.as_user None, "p1", 0%Z)]).
  { repeat constructor. }
  assert (Hi : Forall insert_works
    [(Sample.as_user None, "p1", 0%Z); (Sample.as_user None, "p1", 1%Z);
     (Sample.as_user None, "p1", 0%Z)]).
  { repeat constructor. }
  split; [exact Ha|]. split; [exact Hi|].
  exact (proj1 (anonymous_votes_all_succeed _ Sample.db0 Ha Hi)).
Defined.

(** C9. [submitVote] changes [votes] at most by appending one row, and
    that row carries the poll and option of the request and the caller's own
    identity: the caller's id when there is a caller, no voter otherwise. The
    other tables stay as they were. So every vote that was not there before
    the request is attributed to the caller. *)
Theorem submitVote_attributes_to_caller (env : Env) (db : Database)
    (pollId : string) (optionIndex : Z) :
  let db' := database (submitVote pollId optionIndex env db) in
  polls db' = polls db /\
  profiles db' = profiles db /\
  (votes db' = votes db \/
   votes db' =
     votes db ++
     [{| Vote.id := generated_id env;
         Vote.poll_id := pollId;
         Vote.user_id :=
           match user (getUser env) with
           | Some caller => Some (User.id caller)
           | None => None
           end;
         Vote.option_index := optionIndex |}]) /\
  (forall v, In v (votes db') -> ~ In v (votes db) ->
     Vote.user_id v = option_map User.id (user (getUser env))).
Proof.
  assert (Hcases :
    database (submitVote pollId optionIndex env db) = db \/
    database (submitVote pollId optionIndex env db) =
      with_votes db (votes db ++ [cast_vote env pollId optionIndex])).
  { destruct (user (getUser env)) as [u|] eqn:Hu.
    - rewrite (submitVote_authenticated _ _ _ _ u Hu).
      unfold insert_outcome.
      destruct (fault env Votes Select) as [e|];
        [destruct (code e =? "PGRST116")|
         destruct (votes_of db pollId (User.id u)) as [|v [|v' l]]];
        destruct (fault env Votes Insert); simpl; auto.
    - rewrite (submitVote_anonymous _ _ _ _ Hu).
      unfold insert_outcome. destruct (fault env Votes Insert); simpl; auto. }
  simpl. destruct Hcases as [H|H]; rewrite H; simpl.
  - repeat split; auto. intros v Hin Hnot. contradiction.
  - repeat split.
    + right. unfold cast_vote. destruct (user (getUser env)); reflexivity.
    + intros v Hin Hnot. apply in_app_or in Hin.
      destruct Hin as [Hin|[Hv|[]]]; [contradiction|].
      subst v. reflexivity.
Qed.

(** ** At most one vote per voter and poll *)

(** Case analysis on the innermost scrutinee, until none is left. *)
Ltac case_split :=
  repeat match goal with
         | |- context [match ?x with _ => _ end] =>
             lazymatch x with
             | context [match _ with _ => _ end] => fail
             | _ => destruct x eqn:?; simpl
             end
         end.

Ltac unfold_queries :=
  unfold select_polls, select_polls_ordered, select_votes, select_profiles,
    insert_poll, insert_vote, delete_polls, await_update, request.

(** Only [submitVote] touches [votes]. *)
Lemma createPoll_votes (formData : FormData) (env : Env) (db : Database) :
  votes (database (createPoll formData env db)) = votes db.
Proof.
  unfold createPoll. run_action. unfold_queries. case_split; reflexivity.
Qed.

Lemma getUserPolls_database (env : Env) (db : Database) :
  database (getUserPolls env db) = db.
Proof.
  unfold getUserPolls. run_action. unfold_queries. case_split; reflexivity.
Qed.

Lemma getPollById_database (id : string) (env : Env) (db : Database) :
  database (getPollById id env db) = db.
Proof.
  unfold getPollById. run_action. unfold_queries. case_split; reflexivity.
Qed.

Lemma deletePoll_votes (id : string) (env : Env) (db : Database) :
  votes (database (deletePoll id env db)) = votes db.
Proof.
  unfold deletePoll. run_action. unfold_queries. case_split; reflexivity.
Qed.

Lemma updatePoll_votes (pollId : string) (formData : FormData) (env : Env)
    (db : Database) :
  votes (database (updatePoll pollId formData env db)) = votes db.
Proof.
  unfold updatePoll. run_action. unfold_queries. case_split; reflexivity.
Qed.

Lemma votes_of_cast (env : Env) (db : Database) (pollId : string)
    (optionIndex : Z) (pollId' uid' : string) :
  votes_of
    (with_votes db (votes db ++ [cast_vote env pollId optionIndex]))
    pollId' uid' =
  votes_of db pollId' uid' ++
  (if by_voter pollId' uid' (cast_vote env pollId optionIndex)
   then [cast_vote env pollId optionIndex] else []).
Proof.
  unfold votes_of, by_voter. cbn [votes with_votes].
  rewrite filter_app. cbn [filter].
  now destruct (_ && _).
Qed.

Lemma by_voter_cast (env : Env) (pollId : string) (optionIndex : Z)
    (pollId' uid' : string) :
  by_voter pollId' uid' (cast_vote env pollId optionIndex) = true ->
  exists u, user (getUser env) = Some u /\ User.id u = uid' /\ pollId = pollId'.
Proof.
  unfold by_voter, cast_vote, eq_nullable. simpl.
  intros H. apply andb_true_iff in H. destruct H as [Hp Hu].
  destruct (user (getUser env)) as [u|]; [|discriminate].
  simpl in Hu. apply String.eqb_eq in Hp, Hu. eauto.
Qed.

Lemma insert_outcome_one_vote (env : Env) (db : Database) (pollId : string)
    (optionIndex : Z) (before : list Event) :
  one_vote_per_voter db ->
  (forall u, user (getUser env) = Some u ->
             votes_of db pollId (User.id u) = []) ->
  one_vote_per_voter
    (database (insert_outcome env db pollId optionIndex before)).
Proof.
  intros Hinv Hnone. unfold insert_outcome.
  destruct (fault env Votes Insert); [exact Hinv|].
  unfold database. simpl. intros pollId' uid'. rewrite votes_of_cast.
  destruct (by_voter pollId' uid' _) eqn:Hb.
  - destruct (by_voter_cast _ _ _ _ _ Hb) as [u [Hu [Hid Hp]]]. subst.
    rewrite (Hnone u Hu). simpl. lia.
  - rewrite app_nil_r. apply Hinv.
Qed.

Lemma submitVote_one_vote (env : Env) (db : Database) (pollId : string)
    (optionIndex : Z) :
  genuine_faults env ->
  one_vote_per_voter db ->
  one_vote_per_voter (database (submitVote pollId optionIndex env db)).
Proof.
  intros Hg Hinv.
  destruct (user (getUser env)) as [u|] eqn:Hu.
  - rewrite (submitVote_authenticated _ _ _ _ u Hu).
    destruct (fault env Votes Select) as [e|] eqn:Hs.
    + destruct (code e =? "PGRST116") eqn:Hc; [|exact Hinv].
      apply String.eqb_eq in Hc. now destruct (Hg e Hs).
    + pose proof (Hinv pollId (User.id u)) as Hle.
      destruct (votes_of db pollId (User.id u)) as [|v [|v' l]] eqn:Hv.
      * apply insert_outcome_one_vote; [exact Hinv|].
        intros u' Hu'. rewrite Hu in Hu'. injection Hu' as <-. exact Hv.
      * exact Hinv.
      * simpl in Hle. lia.
  - rewrite (submitVote_anonymous _ _ _ _ Hu).
    apply insert_outcome_one_vote; [exact Hinv|].
    intros u' Hu'. rewrite Hu in Hu'. discriminate.
Qed.

Lemma one_vote_per_voter_votes (db db' : Database) :
  votes db' = votes db -> one_vote_per_voter db -> one_vote_per_voter db'.
Proof.
  intros Hv Hinv pollId uid. unfold votes_of. rewrite Hv. apply Hinv.
Qed.

Lemma reachable_one_vote_per_voter (db : Database) :
  reachable db -> one_vote_per_voter db.
Proof.
  induction 1 as [db Hempty | a env db Hreach IH Hg].
  - intros pollId uid. unfold votes_of. rewrite Hempty. simpl. lia.
  - destruct a; simpl.
    + eapply one_vote_per_voter_votes; [apply createPoll_votes | exact IH].
    + now rewrite getUserPolls_database.
    + now rewrite getPollById_database.
    + now apply submitVote_one_vote.
    + eapply one_vote_per_voter_votes; [apply deletePoll_votes | exact IH].
    + eapply one_vote_per_voter_votes; [apply updatePoll_votes | exact IH].
Qed.

(** C3. When the caller [u] already has a vote on the poll, in a database
    that holds at most one vote per voter and poll (as every database reached
    by serving requests does), and the request that looks for the earlier
    vote does not fail, [submitVote] answers "You have already voted on this
    poll." for every option index, issues no insert and leaves the database
    as it was, which holds exactly one vote of [u] on the poll. *)
Theorem second_vote_rejected (env : Env) (db : Database) (u : User.t)
    (pollId : string) (anyIndex : Z) :
  user (getUser env) = Some u ->
  fault env Votes Select = None ->
  one_vote_per_voter db ->
  votes_of db pollId (User.id u) <> [] ->
  submitVote pollId anyIndex env db =
    (Some "You have already voted on this poll.", db,
     [Storage Votes Select]) /\
  length (votes_of (database (submitVote pollId anyIndex env db))
            pollId (User.id u)) = 1.
Proof.
  intros Hu Hs Hinv Hex.
  rewrite (submitVote_authenticated _ _ _ _ u Hu), Hs.
  pose proof (Hinv pollId (User.id u)) as Hle.
  destruct (votes_of db pollId (User.id u)) as [|v [|v' l]] eqn:Hv.
  - now destruct Hex.
  - unfold database. simpl. rewrite Hv. split; reflexivity.
  - simpl in Hle. lia.
Qed.

Lemma after_first_vote_reachable : reachable after_first_vote.
Proof.
  apply (reachable_serve (SubmitVote "p1" 0)).
  - now apply reachable_init.
  - intros e He. discriminate.
Qed.

Lemma second_vote_rejected_witness :
  votes_of after_first_vote "p1" "u2" <> [] /\
  result (submitVote "p1" 1 (Sample.as_user (Some "u2")) after_first_vote) =
    Some "You have already voted on this poll." /\
  length (votes_of
            (database (submitVote "p1" 1 (Sample.as_user (Some "u2"))
                         after_first_vote)) "p1" "u2") = 1.
Proof.
  assert (Hex : votes_of after_first_vote "p1" "u2" <> []).
  { simpl. discriminate. }
  destruct (second_vote_rejected (Sample.as_user (Some "u2")) after_first_vote
              {| User.id := "u2" |} "p1" 1 eq_refl eq_refl
              (reachable_one_vote_per_voter _ after_first_vote_reachable) Hex)
    as [Hr Hn].
  split; [exact Hex|]. split; [now rewrite Hr | exact Hn].
Defined.

(** Without the bound on the votes already there, the check does not
    hold the line: [.single()] answers [PGRST116] for two rows as for none,
    and a third vote of the same voter is stored. *)
Remark third_vote_after_two :
  let v := {| Vote.id := "v"; Vote.poll_id := "p1";
              Vote.user_id := Some "u2"; Vote.option_index := 0 |} in
  let db := with_votes Sample.db0 [v; v] in
  result (submitVote "p1" 1 (Sample.as_user (Some "u2")) db) = None /\
  length (votes_of (database (submitVote "p1" 1 (Sample.as_user (Some "u2")) db))
            "p1" "u2") = 3.
Proof. split; reflexivity. Qed.

(** ** Creating and updating polls *)

Lemma invalid_form_check (formData : FormData) :
  invalid_form formData ->
  match get "question" formData with
  | None => True
  | Some q =>
      negb (truthy q) ||
      (length (filter truthy (getAll "options" formData)) <? 2)%nat = true
  end.
Proof.
  intros [H|[H|H]].
  - now rewrite H.
  - rewrite H. reflexivity.
  - destruct (get "question" formData); [|exact I].
    apply orb_true_iff. right. now apply Nat.ltb_lt.
Qed.

Lemma valid_or_invalid (formData : FormData) :
  valid_form formData \/ invalid_form formData.
Proof.
  unfold valid_form, invalid_form.
  destruct (get "question" formData) as [q|]; [|auto].
  destruct (String.eqb_spec q ""); [subst; auto|].
  destruct (le_lt_dec 2 (length (filter truthy (getAll "options" formData))));
    [left | auto].
  split; [exists q; auto | assumption].
Qed.

Lemma valid_not_invalid (formData : FormData) :
  valid_form formData -> ~ invalid_form formData.
Proof.
  intros [[q [Hq Hne]] Hlen] [H|[H|H]].
  - congruence.
  - rewrite Hq in H. injection H as ->. now apply Hne.
  - lia.
Qed.

(** C6. [createPoll] on a form whose question is missing or empty, or
    whose options that are not empty number fewer than two, answers "Please
    provide a question and at least two options." and issues no storage
    request. On a valid form without a caller it answers with the
    authentication error ("You must be logged in to create a poll.", or the
    error of [auth.getUser] when it reports one), again without a storage
    request. On a valid form with a caller, when the insert does not fail, it
    succeeds and the one poll it stores has the caller's id as its owner. *)
Theorem createPoll_validates_then_authenticates (formData : FormData)
    (env : Env) (db : Database) :
  (invalid_form formData ->
   createPoll formData env db =
     (Some "Please provide a question and at least two options.", db, [])) /\
  (valid_form formData -> user (getUser env) = None ->
   createPoll formData env db =
     (Some match userError (getUser env) with
           | Some e => message e
           | None => "You must be logged in to create a poll."
           end, db, [])) /\
  (forall caller,
     valid_form formData ->
     user (getUser env) = Some caller -> userError (getUser env) = None ->
     fault env Polls Insert = None ->
     result (createPoll formData env db) = None /\
     polls (database (createPoll formData env db)) =
       polls db ++ [created_poll env caller formData] /\
     Poll.user_id (created_poll env caller formData) = User.id caller).
Proof.
  split; [|split].
  - intros Hinv. apply invalid_form_check in Hinv. unfold createPoll.
    destruct (get "question" formData) as [q|]; [|reflexivity].
    now rewrite Hinv.
  - intros Hv Hu. unfold createPoll. pass_input_check Hv. run_action.
    rewrite Hu. now destruct (userError (getUser env)).
  - intros caller Hv Hu He Hi. unfold createPoll, created_poll.
    pass_input_check Hv. run_action. rewrite Hu, He. simpl.
    unfold insert_poll, request. rewrite Hi. simpl. repeat split.
Qed.

Lemma createPoll_validates_then_authenticates_witness :
  invalid_form (Sample.form "Best color?" ["OnlyOne"]) /\
  createPoll (Sample.form "Best color?" ["OnlyOne"])
    (Sample.as_user (Some "u1")) Sample.db0 =
    (Some "Please provide a question and at least two options.",
     Sample.db0, []) /\
  valid_form (Sample.form "Q" ["a"; "b"]) /\
  result (createPoll (Sample.form "Q" ["a"; "b"]) (Sample.as_user None)
            Sample.db0) =
    Some "You must be logged in to create a poll." /\
  map Poll.user_id
    (polls (database (createPoll (Sample.form "Q" ["a"; "b"])
                        (Sample.as_user (Some "u1")) Sample.db0))) =
    ["u1"; "u1"].
Proof.
  assert (Hinv : invalid_form (Sample.form "Best color?" ["OnlyOne"])).
  { right. right. simpl. lia. }
  split; [exact Hinv|]. split.
  { exact (proj1 (createPoll_validates_then_authenticates
                    (Sample.form "Best color?" ["OnlyOne"])
                    (Sample.as_user (Some "u1")) Sample.db0) Hinv). }
  split; [exact sample_form_valid|]. split.
  { pose proof (proj1 (proj2 (createPoll_validates_then_authenticates
                    (Sample.form "Q" ["a"; "b"])
                    (Sample.as_user None) Sample.db0))
                  sample_form_valid eq_refl) as H.
    now rewrite H. }
  destruct (proj2 (proj2 (createPoll_validates_then_authenticates
                    (Sample.form "Q" ["a"; "b"])
                    (Sample.as_user (Some "u1")) Sample.db0))
              {| User.id := "u1" |} sample_form_valid eq_refl eq_refl eq_refl)
    as [_ [H _]].
  rewrite H. reflexivity.
Defined.

(** Scenario A: the poll of [u1] with options Red and Blue, in that order. *)
Example scenario_A :
  polls (database
           (createPoll (Sample.form "Best color?" ["Red"; "Blue"])
              (Sample.as_user (Some "u1"))
              {| polls := []; votes := []; profiles := [] |})) =
  [{| Poll.id := "g1"; Poll.user_id := "u1"; Poll.question := "Best color?";
      Poll.options := ["Red"; "Blue"]; Poll.created_at := 100 |}].
Proof. reflexivity. Qed.

(** What the check discards is the empty string: an option of spaces only
    is kept and counts towards the two. *)
Remark spaces_only_option_counts :
  result (createPoll (Sample.form "Q" [" "; "  "])
            (Sample.as_user (Some "u1")) Sample.db0) = None.
Proof. reflexivity. Qed.

(** C7, as the code has it. [updatePoll] checks the form first, then
    the caller, and fetches the poll last. For a poll id that no row of
    [polls] has, it answers "Please provide a question and at least two
    options." on an invalid form; on a valid form it answers with the
    authentication error when [auth.getUser] reports an error or no caller,
    and "Poll not found or you don't have permission to update it." when
    there is a caller. In every case the database stays as it was and no
    write is issued. *)
Theorem updatePoll_missing_poll (pollId : string) (formData : FormData)
    (env : Env) (db : Database) :
  polls_with_id db pollId = [] ->
  (invalid_form formData ->
   result (updatePoll pollId formData env db) =
     Some "Please provide a question and at least two options.") /\
  (valid_form formData ->
   result (updatePoll pollId formData env db) =
     Some match userError (getUser env), user (getUser env) with
          | Some e, _ => message e
          | None, None => "You must be logged in to update a poll."
          | None, Some _ =>
              "Poll not found or you don't have permission to update it."
          end) /\
  database (updatePoll pollId formData env db) = db /\
  Forall (fun e => is_write e = false)
         (issued (updatePoll pollId formData env db)).
Proof.
  intros Hp.
  assert (Hinvalid : invalid_form formData ->
            updatePoll pollId formData env db =
            (Some "Please provide a question and at least two options.",
             db, [])).
  { intros Hinv. apply invalid_form_check in Hinv. unfold updatePoll.
    destruct (get "question" formData) as [q|]; [|reflexivity].
    now rewrite Hinv. }
  assert (Hvalid : valid_form formData ->
            exists l,
              updatePoll pollId formData env db =
              (Some match userError (getUser env), user (getUser env) with
                    | Some e, _ => message e
                    | None, None => "You must be logged in to update a poll."
                    | None, Some _ =>
                        "Poll not found or you don't have permission to update it."
                    end, db, l) /\
              Forall (fun e => is_write e = false) l).
  { intros Hv. unfold updatePoll. pass_input_check Hv. run_action.
    destruct (userError (getUser env)) as [e|]; simpl; [eauto|].
    destruct (user (getUser env)) as [u|]; simpl; [|eauto].
    destruct (fault env Polls Select) as [e|] eqn:Hf.
    - rewrite (select_poll_owner_fault _ _ _ e Hf). simpl.
      eexists. split; [reflexivity|]. repeat constructor.
    - rewrite select_poll_owner by assumption. rewrite Hp. simpl.
      eexists. split; [reflexivity|]. repeat constructor. }
  split; [|split].
  - intros Hinv. now rewrite (Hinvalid Hinv).
  - intros Hv. destruct (Hvalid Hv) as [l [-> _]]. reflexivity.
  - destruct (valid_or_invalid formData) as [Hv|Hinv].
    + destruct (Hvalid Hv) as [l [-> Hl]]. split; [reflexivity | exact Hl].
    + rewrite (Hinvalid Hinv). split; [reflexivity | constructor].
Qed.

Lemma updatePoll_missing_poll_witness :
  polls_with_id Sample.db0 "missing" = [] /\
  result (updatePoll "missing" (Sample.form "Q" ["a"; "b"])
            (Sample.as_user (Some "u1")) Sample.db0) =
    Some "Poll not found or you don't have permission to update it." /\
  result (updatePoll "missing" (Sample.form "" ["a"; "b"])
            (Sample.as_user (Some "u1")) Sample.db0) =
    Some "Please provide a question and at least two options.".
Proof.
  split; [reflexivity|]. split.
  - exact (proj1 (proj2 (updatePoll_missing_poll "missing"
                           (Sample.form "Q" ["a"; "b"])
                           (Sample.as_user (Some "u1")) Sample.db0 eq_refl))
             sample_form_valid).
  - apply (proj1 (updatePoll_missing_poll "missing"
                    (Sample.form "" ["a"; "b"])
                    (Sample.as_user (Some "u1")) Sample.db0 eq_refl)).
    right. left. reflexivity.
Defined.

(** C7, as stated, fails: no row of [polls] has the id, the question is
    empty, and the answer is the one of the input check, given before any
    storage request. *)
Lemma updatePoll_validates_before_fetch :
  let r := updatePoll "missing" (Sample.form "" ["a"; "b"])
             (Sample.as_user (Some "u1")) Sample.db0 in
  polls_with_id Sample.db0 "missing" = [] /\
  result r = Some "Please provide a question and at least two options." /\
  result r <>
    Some "Poll not found or you don't have permission to update it." /\
  issued r = [].
Proof.
  simpl. repeat split; try reflexivity. discriminate.
Qed.

(** What an awaited update does to one row: nothing, or new [question] and
    [options] with the other columns kept. *)
Lemma apply_update_frame (q : UpdateQuery) (r : Poll.row) :
  Poll.id (apply_update q r) = Poll.id r /\
  Poll.user_id (apply_update q r) = Poll.user_id r /\
  Poll.created_at (apply_update q r) = Poll.created_at r /\
  (apply_update q r = r \/
   matches (filters q) r = true /\
   Poll.question (apply_update q r) = set_question q /\
   Poll.options (apply_update q r) = set_options q).
Proof.
  unfold apply_update. destruct (matches (filters q) r); simpl; auto 10.
Qed.

(** The database after [updatePoll]: as before, or with one of the two
    updates applied to [polls]. *)
Lemma updatePoll_database (pollId : string) (formData : FormData) (env : Env)
    (db : Database) :
  database (updatePoll pollId formData env db) = db \/
  exists question q,
    get "question" formData = Some question /\
    (q = update_by_id pollId question
           (filter truthy (getAll "options" formData)) \/
     exists uid,
       q = update_by_id_and_owner pollId question
             (filter truthy (getAll "options" formData)) uid) /\
    database (updatePoll pollId formData env db) =
      with_polls db (map (apply_update q) (polls db)).
Proof.
  unfold updatePoll. run_action. unfold_queries. case_split; auto;
    right; do 2 eexists; (split; [reflexivity|]);
    (split; [|reflexivity]); unfold update_by_id_and_owner, update_by_id;
    eauto.
Qed.

Lemma update_query_frame (pollId question : string) (options : list string)
    (q : UpdateQuery) :
  q = update_by_id pollId question options \/
  (exists uid, q = update_by_id_and_owner pollId question options uid) ->
  set_question q = question /\ set_options q = options /\
  forall r, matches (filters q) r = true -> Poll.id r = pollId.
Proof.
  intros [->|[uid ->]]; simpl; repeat split; intros r H;
    unfold matches in H; simpl in H;
    apply andb_true_iff in H; destruct H as [H _];
    now apply String.eqb_eq in H.
Qed.

(** C8. After a successful [updatePoll], [polls] has the same rows in
    the same order, each with its [id], [user_id] and [created_at] as
    before; a row with another id than the requested one is as it was, and a
    row that differs has the question and the non-empty options of the form.
    [votes] and [profiles] are as they were. *)
Theorem updatePoll_changes_question_and_options_only (pollId : string)
    (formData : FormData) (env : Env) (db : Database) :
  result (updatePoll pollId formData env db) = None ->
  let db' := database (updatePoll pollId formData env db) in
  Forall2 (only_question_and_options pollId formData) (polls db) (polls db') /\
  votes db' = votes db /\
  profiles db' = profiles db.
Proof.
  intros _. simpl.
  destruct (updatePoll_database pollId formData env db)
    as [-> | [question [q [Hq [Hcase ->]]]]].
  - repeat split. induction (polls db) as [|r l IH]; constructor; [|exact IH].
    unfold only_question_and_options. auto 10.
  - repeat split. simpl.
    destruct (update_query_frame _ _ _ _ Hcase) as [Hsq [Hso Hid]].
    induction (polls db) as [|r l IH]; simpl; constructor; [|exact IH].
    destruct (apply_update_frame q r) as [H1 [H2 [H3 H4]]].
    unfold only_question_and_options. repeat split; auto.
    + intros Hne. destruct H4 as [H4|[H4 _]]; [exact H4|].
      now destruct (Hne (Hid r H4)).
    + destruct H4 as [H4|[_ [H4 H5]]]; [now left | right].
      rewrite H4, H5, Hsq, Hso. split; [exact Hq | reflexivity].
Qed.

Lemma updatePoll_changes_question_and_options_only_witness :
  result (updatePoll "p1" (Sample.form "Q" ["a"; "b"])
            (Sample.as_user (Some "a1")) Sample.db0) = None /\
  Forall2 (only_question_and_options "p1" (Sample.form "Q" ["a"; "b"]))
    (polls Sample.db0)
    (polls (database (updatePoll "p1" (Sample.form "Q" ["a"; "b"])
                        (Sample.as_user (Some "a1")) Sample.db0))).
Proof.
  split; [reflexivity|].
  exact (proj1 (updatePoll_changes_question_and_options_only "p1"
                  (Sample.form "Q" ["a"; "b"]) (Sample.as_user (Some "a1"))
                  Sample.db0 eq_refl)).
Defined.

(** The update of the administrator [a1] on the poll of [u1]. *)
Example admin_update :
  polls (database (updatePoll "p1" (Sample.form "Q" ["a"; ""; "b"])
                     (Sample.as_user (Some "a1")) Sample.db0)) =
  [{| Poll.id := "p1"; Poll.user_id := "u1"; Poll.question := "Q";
      Poll.options := ["a"; "b"]; Poll.created_at := 1 |}].
Proof. reflexivity. Qed.

(** ** Listing the caller's polls *)

(** C10. [getUserPolls] answers with a list in every case. Whenever its
    [error] is not [null] its [polls] is the empty list: without a caller it
    answers no polls and "Not authenticated"; when the select fails, no polls
    and the message of the storage error. When there is a caller and the
    select does not fail, [error] is [null] and [polls] is the caller's
    polls, newest first. It never changes the database. *)
Theorem getUserPolls_empty_on_failure (env : Env) (db : Database) :
  (snd (result (getUserPolls env db)) <> None ->
   fst (result (getUserPolls env db)) = []) /\
  (user (getUser env) = None ->
   result (getUserPolls env db) = ([], Some "Not authenticated")) /\
  (forall caller e,
     user (getUser env) = Some caller -> fault env Polls Select = Some e ->
     result (getUserPolls env db) = ([], Some (message e))) /\
  (forall caller,
     user (getUser env) = Some caller -> fault env Polls Select = None ->
     result (getUserPolls env db) = (own_polls db (User.id caller), None)) /\
  database (getUserPolls env db) = db.
Proof.
  unfold getUserPolls. run_action.
  destruct (user (getUser env)) as [u|]; simpl.
  - unfold select_polls_ordered, request.
    destruct (fault env Polls Select) as [e|]; simpl.
    + repeat split; try discriminate.
      intros caller e' _ H. now inversion H.
    + repeat split; try discriminate.
      * intros H. now destruct H.
      * intros caller H _. inversion H; subst. unfold own_polls.
        now rewrite filter_matches_one.
  - repeat split; discriminate.
Qed.

Lemma getUserPolls_empty_on_failure_witness :
  user (getUser (Sample.as_user None)) = None /\
  result (getUserPolls (Sample.as_user None) Sample.db0) =
    ([], Some "Not authenticated") /\
  result (getUserPolls (Sample.as_user (Some "u1")) Sample.db0) =
    ([Sample.p1], None).
Proof.
  split; [reflexivity|]. split.
  - exact (proj1 (proj2 (getUserPolls_empty_on_failure
                           (Sample.as_user None) Sample.db0)) eq_refl).
  - exact (proj1 (proj2 (proj2 (proj2 (getUserPolls_empty_on_failure
                           (Sample.as_user (Some "u1")) Sample.db0))))
             {| User.id := "u1" |} eq_refl eq_refl).
Defined.

(** The order of the answer: newest first. *)
Lemma insert_desc_sorted (p : Poll.row) (l : list Poll.row) :
  StronglySorted (fun a b => (Poll.created_at b <= Poll.created_at a)%Z) l ->
  StronglySorted (fun a b => (Poll.created_at b <= Poll.created_at a)%Z)
    (insert_desc p l).
Proof.
  induction 1 as [|q l Hs IH Hq]; simpl.
  - repeat constructor.
  - destruct (Z.ltb_spec (Poll.created_at q) (Poll.created_at p)).
    + constructor; [constructor; assumption|].
      constructor; [lia|].
      eapply Forall_impl; [|exact Hq]. simpl. intros a Ha. lia.
    + constructor; [exact IH|].
      assert (Hin : forall a, In a (insert_desc p l) -> a = p \/ In a l).
      { clear. induction l as [|b l IHl]; simpl.
        - intros a [H|[]]; auto.
        - intros a. destruct (Poll.created_at b <? Poll.created_at p)%Z;
            simpl.
          + intros [H|[H|H]]; auto.
          + intros [H|H]; auto. destruct (IHl a H); auto. }
      apply Forall_forall. intros a Ha.
      destruct (Hin a Ha) as [->|Hl]; [lia|].
      rewrite Forall_forall in Hq. now apply Hq.
Qed.

Lemma own_polls_newest_first (db : Database) (uid : string) :
  StronglySorted (fun a b => (Poll.created_at b <= Poll.created_at a)%Z)
    (own_polls db uid).
Proof.
  unfold own_polls, order_created_at_desc.
  induction (filter _ (polls db)) as [|p l IH]; simpl.
  - constructor.
  - now apply insert_desc_sorted.
Qed.

(** ** Reading one poll *)

Lemma select_poll_by_id (env : Env) (db : Database) (id : string) :
  fault env Polls Select = None ->
  select_polls (fun r => r) [eq_text Poll.id id] env db =
  ({| data := Some (polls_with_id db id); error := None |},
   db, [Storage Polls Select]).
Proof.
  intros Hf. unfold select_polls, request. rewrite Hf.
  rewrite filter_matches_one, map_id. reflexivity.
Qed.

Lemma getPollById_answer (id : string) (env : Env) (db : Database) :
  getPollById id env db =
  (match fault env Polls Select with
   | Some e => (None, Some (message e))
   | None =>
       match polls_with_id db id with
       | [p] => (Some p, None)
       | _ => (None, Some (message PGRST116))
       end
   end, db, [Storage Polls Select]).
Proof.
  unfold getPollById. run_action.
  destruct (fault env Polls Select) as [e|] eqn:Hf.
  - unfold select_polls, request. rewrite Hf. reflexivity.
  - rewrite select_poll_by_id by assumption.
    now destruct (polls_with_id db id) as [|p [|p' l]].
Qed.

Lemma polls_with_id_In (db : Database) (id : string) (p : Poll.row) :
  In p (polls_with_id db id) <-> In p (polls db) /\ Poll.id p = id.
Proof.
  unfold polls_with_id. rewrite filter_In.
  split; intros [H1 H2]; split; auto.
  - now apply String.eqb_eq.
  - now apply String.eqb_eq.
Qed.

(** X1. [getPollById] answers with a poll or with an error, never with both
    and never with neither; the poll it answers with is a row of [polls] and
    has the requested id; when the select does not fail and no row has the
    id, the error is the one of [.single()]. The database stays as it was. *)
Theorem getPollById_poll_or_error (id : string) (env : Env) (db : Database) :
  let r := result (getPollById id env db) in
  (fst r = None <-> snd r <> None) /\
  (forall p, fst r = Some p -> In p (polls db) /\ Poll.id p = id) /\
  (fault env Polls Select = None -> polls_with_id db id = [] ->
   r = (None, Some "JSON object requested, multiple (or no) rows returned")) /\
  database (getPollById id env db) = db.
Proof.
  rewrite getPollById_answer. unfold result, database. simpl.
  destruct (fault env Polls Select) as [e|]; simpl.
  - repeat split; try discriminate; auto.
  - destruct (polls_with_id db id) as [|p [|p' l]] eqn:Hp; simpl;
      repeat split; try discriminate; auto; try (intros H; now destruct H).
    all: inversion H; subst;
      assert (Hin : In p0 (polls_with_id db id)) by (rewrite Hp; now left);
      now apply polls_with_id_In in Hin.
Qed.

Lemma getPollById_poll_or_error_witness :
  fault (Sample.as_user None) Polls Select = None /\
  polls_with_id Sample.db0 "missing" = [] /\
  result (getPollById "missing" (Sample.as_user None) Sample.db0) =
    (None, Some "JSON object requested, multiple (or no) rows returned").
Proof.
  split; [reflexivity|]. split; [reflexivity|].
  exact (proj1 (proj2 (proj2 (getPollById_poll_or_error "missing"
                                (Sample.as_user None) Sample.db0)))
           eq_refl eq_refl).
Defined.

(** ** The two outcomes of a mutating action *)

Ltac refused := left; eexists; split; reflexivity.

Lemma check_passed_valid (formData : FormData) (q : string) :
  get "question" formData = Some q ->
  negb (truthy q) ||
  (length (filter truthy (getAll "options" formData)) <? 2)%nat = false ->
  valid_form formData.
Proof.
  intros Hq Hc. apply orb_false_iff in Hc. destruct Hc as [Ht Hl].
  apply negb_false_iff in Ht. apply truthy_true in Ht.
  apply Nat.ltb_ge in Hl. split; [exists q; auto | exact Hl].
Qed.

Lemma createPoll_outcome (formData : FormData) (env : Env) (db : Database) :
  (exists msg, result (createPoll formData env db) = Some msg /\
               database (createPoll formData env db) = db) \/
  (exists caller,
     valid_form formData /\ user (getUser env) = Some caller /\
     result (createPoll formData env db) = None /\
     database (createPoll formData env db) =
       with_polls db (polls db ++ [created_poll env caller formData])).
Proof.
  unfold createPoll, created_poll.
  destruct (get "question" formData) as [q|] eqn:Hq; [|refused].
  destruct (negb (truthy q) || _) eqn:Hc; [refused|].
  run_action.
  destruct (userError (getUser env)); simpl; [refused|].
  destruct (user (getUser env)) as [u|]; simpl; [|refused].
  unfold insert_poll, request.
  destruct (fault env Polls Insert); simpl; [refused|].
  right. exists u.
  split; [now apply (check_passed_valid _ q)|]. repeat split.
Qed.

Lemma submitVote_outcome (pollId : string) (optionIndex : Z) (env : Env)
    (db : Database) :
  (exists msg, result (submitVote pollId optionIndex env db) = Some msg /\
               database (submitVote pollId optionIndex env db) = db) \/
  (result (submitVote pollId optionIndex env db) = None /\
   database (submitVote pollId optionIndex env db) =
     with_votes db (votes db ++ [cast_vote env pollId optionIndex])).
Proof.
  destruct (user (getUser env)) as [u|] eqn:Hu.
  - rewrite (submitVote_authenticated _ _ _ _ u Hu). unfold insert_outcome.
    destruct (fault env Votes Select) as [e|];
      [destruct (code e =? "PGRST116")|
       destruct (votes_of db pollId (User.id u)) as [|v [|v' l]]];
      destruct (fault env Votes Insert); simpl;
      first [refused | right; split; reflexivity].
  - rewrite (submitVote_anonymous _ _ _ _ Hu). unfold insert_outcome.
    destruct (fault env Votes Insert); simpl;
      first [refused | right; split; reflexivity].
Qed.

Lemma role_claim_admin (env : Env) (db : Database) (uid : string)
    (r : Profile.row) :
  fault env Profiles Select = None ->
  profiles_of db uid = [r] ->
  role_claim env db uid = Some (Profile.role r).
Proof. intros Hf Hp. unfold role_claim. now rewrite Hf, Hp. Qed.

Lemma deletePoll_outcome (id : string) (env : Env) (db : Database) :
  (exists msg, result (deletePoll id env db) = Some msg /\
               database (deletePoll id env db) = db) \/
  (exists u p,
     user (getUser env) = Some u /\ polls_with_id db id = [p] /\
     (Poll.user_id p = User.id u \/
      role_claim env db (User.id u) = Some "admin") /\
     result (deletePoll id env db) = None /\
     database (deletePoll id env db) =
       with_polls db (filter (fun r => negb (Poll.id r =? id)) (polls db))).
Proof.
  assert (Hdel : forall r, negb (matches [eq_text Poll.id id] r) =
                           negb (Poll.id r =? id)).
  { intros r. now rewrite matches_one. }
  unfold deletePoll. run_action.
  destruct (userError (getUser env)); simpl; [refused|].
  destruct (user (getUser env)) as [u|]; simpl; [|refused].
  destruct (fault env Polls Select) as [e|] eqn:Hf.
  { rewrite (select_poll_owner_fault _ _ _ e Hf). simpl. refused. }
  rewrite select_poll_owner by assumption.
  destruct (polls_with_id db id) as [|p [|p' l]] eqn:Hp; simpl;
    try refused.
  destruct (Poll.user_id p =? User.id u) eqn:Ho; simpl.
  - apply String.eqb_eq in Ho. unfold delete_polls, request.
    destruct (fault env Polls Delete); simpl; [refused|].
    right. exists u, p. rewrite (filter_ext _ _ Hdel). auto 10.
  - destruct (fault env Profiles Select) as [e|] eqn:Hpf.
    { unfold select_profiles, request. rewrite Hpf. simpl. refused. }
    rewrite select_role by assumption.
    destruct (profiles_of db (User.id u)) as [|r [|r' l]] eqn:Hr; simpl;
      try refused.
    destruct (Profile.role r =? "admin") eqn:Ha; simpl; [|refused].
    apply String.eqb_eq in Ha. unfold delete_polls, request.
    destruct (fault env Polls Delete); simpl; [refused|].
    right. exists u, p. rewrite (filter_ext _ _ Hdel).
    rewrite (role_claim_admin _ _ _ r Hpf Hr), Ha. auto 10.
Qed.

Lemma updatePoll_outcome (pollId : string) (formData : FormData) (env : Env)
    (db : Database) :
  (exists msg, result (updatePoll pollId formData env db) = Some msg /\
               database (updatePoll pollId formData env db) = db) \/
  (exists u p question,
     user (getUser env) = Some u /\ valid_form formData /\
     get "question" formData = Some question /\
     polls_with_id db pollId = [p] /\
     result (updatePoll pollId formData env db) = None /\
     (Poll.user_id p = User.id u /\
      database (updatePoll pollId formData env db) =
        with_polls db
          (map (apply_update
                  (update_by_id_and_owner pollId question
                     (filter truthy (getAll "options" formData)) (User.id u)))
               (polls db)) \/
      Poll.user_id p <> User.id u /\
      role_claim env db (User.id u) = Some "admin" /\
      database (updatePoll pollId formData env db) =
        with_polls db
          (map (apply_update
                  (update_by_id pollId question
                     (filter truthy (getAll "options" formData))))
               (polls db)))).
Proof.
  unfold updatePoll.
  destruct (get "question" formData) as [q|] eqn:Hq; [|refused].
  destruct (negb (truthy q) || _) eqn:Hc; [refused|].
  pose proof (check_passed_valid _ q Hq Hc) as Hv.
  run_action.
  destruct (userError (getUser env)); simpl; [refused|].
  destruct (user (getUser env)) as [u|]; simpl; [|refused].
  destruct (fault env Polls Select) as [e|] eqn:Hf.
  { rewrite (select_poll_owner_fault _ _ _ e Hf). simpl. refused. }
  rewrite select_poll_owner by assumption.
  destruct (polls_with_id db pollId) as [|p [|p' l]] eqn:Hp; simpl;
    try refused.
  destruct (Poll.user_id p =? User.id u) eqn:Ho; simpl.
  - apply String.eqb_eq in Ho. unfold await_update, request.
    destruct (fault env Polls Update); simpl; [refused|].
    right. exists u, p, q. auto 10.
  - apply String.eqb_neq in Ho.
    destruct (fault env Profiles Select) as [e|] eqn:Hpf.
    { unfold select_profiles, request. rewrite Hpf. simpl. refused. }
    rewrite select_role by assumption.
    destruct (profiles_of db (User.id u)) as [|r [|r' l]] eqn:Hr; simpl;
      try refused.
    destruct (Profile.role r =? "admin") eqn:Ha; simpl; [|refused].
    apply String.eqb_eq in Ha. unfold await_update, request.
    destruct (fault env Polls Update); simpl; [refused|].
    right. exists u, p, q.
    rewrite (role_claim_admin _ _ _ r Hpf Hr), Ha. auto 12.
Qed.

(** ** Writing a poll, then reading it *)

Lemma polls_with_id_single (db : Database) (id : string) (p : Poll.row) :
  polls_with_id db id = [p] -> Poll.id p = id.
Proof.
  intros H. assert (Hin : In p (polls_with_id db id)) by (rewrite H; now left).
  now apply polls_with_id_In in Hin.
Qed.

(** The poll [updatePoll] makes of [p]. *)
Lemma apply_update_matching (q : UpdateQuery) (p : Poll.row) :
  matches (filters q) p = true ->
  apply_update q p =
  {| Poll.id := Poll.id p;
     Poll.user_id := Poll.user_id p;
     Poll.question := set_question q;
     Poll.options := set_options q;
     Poll.created_at := Poll.created_at p |}.
Proof. intros H. unfold apply_update. now rewrite H. Qed.

Lemma polls_with_id_updated (db : Database) (q : UpdateQuery) (id : string) :
  polls_with_id (with_polls db (map (apply_update q) (polls db))) id =
  map (apply_update q) (polls_with_id db id).
Proof.
  unfold polls_with_id. simpl.
  induction (polls db) as [|r l IH]; simpl; [reflexivity|].
  destruct (apply_update_frame q r) as [Hid _]. rewrite Hid.
  destruct (Poll.id r =? id); simpl; now rewrite IH.
Qed.

(** X2. A poll created under an id that no stored poll has is what
    [getPollById] answers for that id afterwards: the caller is its owner,
    its question is the one of the form and its options are the non-empty
    options of the form, in the order of the form. *)
Theorem createPoll_then_getPollById (formData : FormData) (env env' : Env)
    (db : Database) (caller : User.t) :
  valid_form formData ->
  user (getUser env) = Some caller -> userError (getUser env) = None ->
  fault env Polls Insert = None ->
  polls_with_id db (generated_id env) = [] ->
  fault env' Polls Select = None ->
  result (getPollById (generated_id env) env'
            (database (createPoll formData env db))) =
  (Some {| Poll.id := generated_id env;
           Poll.user_id := User.id caller;
           Poll.question :=
             match get "question" formData with Some q => q | None => "" end;
           Poll.options := filter truthy (getAll "options" formData);
           Poll.created_at := generated_at env |}, None).
Proof.
  intros Hv Hu He Hi Hfresh Hs.
  rewrite getPollById_answer, Hs. unfold result. simpl.
  unfold createPoll. pass_input_check Hv. run_action. rewrite Hu, He. simpl.
  unfold insert_poll, request. rewrite Hi. simpl.
  unfold polls_with_id in *. simpl. rewrite filter_app, Hfresh. simpl.
  now rewrite String.eqb_refl.
Qed.

Lemma createPoll_then_getPollById_witness :
  valid_form (Sample.form "Q" ["a"; ""; "b"]) /\
  polls_with_id Sample.db0 (generated_id (Sample.as_user (Some "u2"))) = [] /\
  result (getPollById "g1" (Sample.as_user None)
            (database (createPoll (Sample.form "Q" ["a"; ""; "b"])
                         (Sample.as_user (Some "u2")) Sample.db0))) =
  (Some {| Poll.id := "g1"; Poll.user_id := "u2"; Poll.question := "Q";
           Poll.options := ["a"; "b"]; Poll.created_at := 100 |}, None).
Proof.
  assert (Hv : valid_form (Sample.form "Q" ["a"; ""; "b"])).
  { split; [exists "Q"; split; [reflexivity | discriminate] | simpl; lia]. }
  split; [exact Hv|]. split; [reflexivity|].
  exact (createPoll_then_getPollById (Sample.form "Q" ["a"; ""; "b"])
           (Sample.as_user (Some "u2")) (Sample.as_user None) Sample.db0
           {| User.id := "u2" |} Hv eq_refl eq_refl eq_refl eq_refl eq_refl).
Defined.

(** X3. After a successful [deletePoll], [polls] is what it was without
    the rows of the requested id, in the same order; [votes], the votes on
    the deleted poll included, and [profiles] are as they were; and
    [getPollById] for that id answers the error of [.single()]. *)
Theorem deletePoll_then_getPollById (id : string) (env env' : Env)
    (db : Database) :
  result (deletePoll id env db) = None ->
  let db' := database (deletePoll id env db) in
  polls db' = filter (fun r => negb (Poll.id r =? id)) (polls db) /\
  votes db' = votes db /\
  profiles db' = profiles db /\
  (fault env' Polls Select = None ->
   result (getPollById id env' db') =
     (None, Some "JSON object requested, multiple (or no) rows returned")).
Proof.
  intros Hr. simpl.
  destruct (deletePoll_outcome id env db)
    as [[msg [Hm _]] | [u [p [_ [_ [_ [_ Hdb]]]]]]]; [congruence|].
  rewrite Hdb. simpl. repeat split.
  intros Hs. rewrite getPollById_answer, Hs. unfold result. simpl.
  assert (Hnone : polls_with_id
            (with_polls db (filter (fun r => negb (Poll.id r =? id)) (polls db)))
            id = []).
  { unfold polls_with_id. simpl. clear.
    induction (polls db) as [|r l IH]; simpl; [reflexivity|].
    destruct (Poll.id r =? id) eqn:E; simpl; [exact IH|].
    now rewrite E. }
  now rewrite Hnone.
Qed.

Lemma deletePoll_then_getPollById_witness :
  result (deletePoll "p1" (Sample.as_user (Some "a1")) Sample.db0) = None /\
  polls (database (deletePoll "p1" (Sample.as_user (Some "a1")) Sample.db0)) =
    [] /\
  result (getPollById "p1" (Sample.as_user None)
            (database (deletePoll "p1" (Sample.as_user (Some "a1"))
                         Sample.db0))) =
    (None, Some "JSON object requested, multiple (or no) rows returned").
Proof.
  destruct (deletePoll_then_getPollById "p1" (Sample.as_user (Some "a1"))
              (Sample.as_user None) Sample.db0 eq_refl) as [Hp [_ [_ Hg]]].
  split; [reflexivity|]. split; [exact Hp | exact (Hg eq_refl)].
Defined.

(** X4. A mutating action that answers with an error has changed nothing:
    whenever the [error] of [createPoll], [submitVote], [deletePoll] or
    [updatePoll] is not [null], the database is as it was before. *)
Theorem refused_request_changes_nothing (env : Env) (db : Database)
    (id : string) (formData : FormData) (optionIndex : Z) (msg : string) :
  (result (createPoll formData env db) = Some msg ->
   database (createPoll formData env db) = db) /\
  (result (submitVote id optionIndex env db) = Some msg ->
   database (submitVote id optionIndex env db) = db) /\
  (result (deletePoll id env db) = Some msg ->
   database (deletePoll id env db) = db) /\
  (result (updatePoll id formData env db) = Some msg ->
   database (updatePoll id formData env db) = db).
Proof.
  repeat split; intros Hr.
  - destruct (createPoll_outcome formData env db)
      as [[m [_ H]] | [c [_ [_ [H _]]]]]; [exact H | congruence].
  - destruct (submitVote_outcome id optionIndex env db)
      as [[m [_ H]] | [H _]]; [exact H | congruence].
  - destruct (deletePoll_outcome id env db)
      as [[m [_ H]] | [u [p [_ [_ [_ [H _]]]]]]]; [exact H | congruence].
  - destruct (updatePoll_outcome id formData env db)
      as [[m [_ H]] | [u [p [q [_ [_ [_ [_ [H _]]]]]]]]];
      [exact H | congruence].
Qed.

Lemma refused_request_changes_nothing_witness :
  result (deletePoll "p1" (Sample.as_user (Some "u2")) Sample.db0) =
    Some "You are not authorized to delete this poll." /\
  database (deletePoll "p1" (Sample.as_user (Some "u2")) Sample.db0) =
    Sample.db0.
Proof.
  split; [reflexivity|].
  exact (proj1 (proj2 (proj2 (refused_request_changes_nothing
                  (Sample.as_user (Some "u2")) Sample.db0 "p1" [] 0
                  "You are not authorized to delete this poll."))) eq_refl).
Defined.

(** X5. After a successful [updatePoll], exactly one stored poll had the
    requested id, and [getPollById] for that id answers that poll with the
    question of the form and the non-empty options of the form, its [id],
    owner and creation time as before. *)
Theorem updatePoll_then_getPollById (pollId : string) (formData : FormData)
    (env env' : Env) (db : Database) :
  result (updatePoll pollId formData env db) = None ->
  fault env' Polls Select = None ->
  exists p question,
    polls_with_id db pollId = [p] /\
    get "question" formData = Some question /\
    result (getPollById pollId env'
              (database (updatePoll pollId formData env db))) =
    (Some {| Poll.id := pollId;
             Poll.user_id := Poll.user_id p;
             Poll.question := question;
             Poll.options := filter truthy (getAll "options" formData);
             Poll.created_at := Poll.created_at p |}, None).
Proof.
  intros Hr Hs.
  destruct (updatePoll_outcome pollId formData env db)
    as [[msg [Hm _]] | [u [p [q [_ [_ [Hq [Hp [_ Hcase]]]]]]]]];
    [congruence|].
  exists p, q. split; [exact Hp|]. split; [exact Hq|].
  rewrite getPollById_answer, Hs. unfold result. simpl.
  pose proof (polls_with_id_single _ _ _ Hp) as Hid.
  destruct Hcase as [[Ho ->] | [_ [_ ->]]];
    rewrite polls_with_id_updated, Hp; simpl;
    rewrite apply_update_matching; simpl; try now rewrite Hid.
  - unfold matches, eq_text. simpl. rewrite Hid, Ho, !String.eqb_refl.
    reflexivity.
  - unfold matches, eq_text. simpl. rewrite Hid, String.eqb_refl.
    reflexivity.
Qed.

Lemma updatePoll_then_getPollById_witness :
  result (updatePoll "p1" (Sample.form "Q" ["a"; "b"])
            (Sample.as_user (Some "u1")) Sample.db0) = None /\
  exists p question,
    polls_with_id Sample.db0 "p1" = [p] /\
    get "question" (Sample.form "Q" ["a"; "b"]) = Some question /\
    result (getPollById "p1" (Sample.as_user None)
              (database (updatePoll "p1" (Sample.form "Q" ["a"; "b"])
                           (Sample.as_user (Some "u1")) Sample.db0))) =
    (Some {| Poll.id := "p1";
             Poll.user_id := Poll.user_id p;
             Poll.question := question;
             Poll.options :=
               filter truthy (getAll "options" (Sample.form "Q" ["a"; "b"]));
             Poll.created_at := Poll.created_at p |}, None).
Proof.
  split; [reflexivity|].
  exact (updatePoll_then_getPollById "p1" (Sample.form "Q" ["a"; "b"])
           (Sample.as_user (Some "u1")) (Sample.as_user None) Sample.db0
           eq_refl eq_refl).
Defined.

(** ** What sequences of requests keep *)

Lemma serve_polls_cases (a : ServerAction) (env : Env) (db : Database) :
  serve a env db = db \/
  (exists pollId optionIndex,
     serve a env db =
       with_votes db (votes db ++ [cast_vote env pollId optionIndex])) \/
  (exists caller formData,
     valid_form formData /\ user (getUser env) = Some caller /\
     serve a env db =
       with_polls db (polls db ++ [created_poll env caller formData])) \/
  (exists u p id,
     user (getUser env) = Some u /\ polls_with_id db id = [p] /\
     (Poll.user_id p = User.id u \/
      role_claim env db (User.id u) = Some "admin") /\
     serve a env db =
       with_polls db (filter (fun r => negb (Poll.id r =? id)) (polls db))) \/
  (exists u p pollId formData question,
     user (getUser env) = Some u /\ valid_form formData /\
     get "question" formData = Some question /\
     polls_with_id db pollId = [p] /\
     (Poll.user_id p = User.id u /\
      serve a env db =
        with_polls db
          (map (apply_update
                  (update_by_id_and_owner pollId question
                     (filter truthy (getAll "options" formData)) (User.id u)))
               (polls db)) \/
      Poll.user_id p <> User.id u /\
      role_claim env db (User.id u) = Some "admin" /\
      serve a env db =
        with_polls db
          (map (apply_update
                  (update_by_id pollId question
                     (filter truthy (getAll "options" formData))))
               (polls db)))).
Proof.
  destruct a as [formData| |id|pollId optionIndex|id|pollId formData]; simpl.
  - destruct (createPoll_outcome formData env db)
      as [[m [_ H]] | [c [Hv [Hu [_ H]]]]]; [now left|].
    right. right. left. eauto.
  - left. apply getUserPolls_database.
  - left. apply getPollById_database.
  - destruct (submitVote_outcome pollId optionIndex env db)
      as [[m [_ H]] | [_ H]]; [now left|].
    right. left. eauto.
  - destruct (deletePoll_outcome id env db)
      as [[m [_ H]] | [u [p [Hu [Hp [Ha [_ H]]]]]]]; [now left|].
    right. right. right. left. exists u, p, id. auto.
  - destruct (updatePoll_outcome pollId formData env db)
      as [[m [_ H]] | [u [p [q [Hu [Hv [Hq [Hp [_ H]]]]]]]]]; [now left|].
    right. right. right. right. exists u, p, pollId, formData, q. auto 10.
Qed.

Lemma created_poll_well_formed (env : Env) (caller : User.t)
    (formData : FormData) :
  valid_form formData -> well_formed_poll (created_poll env caller formData).
Proof.
  intros [[q [Hq Hne]] Hlen]. unfold well_formed_poll, created_poll. simpl.
  rewrite Hq. repeat split; auto.
  apply Forall_forall. intros o Ho. apply filter_In in Ho.
  now apply truthy_true.
Qed.

Lemma apply_update_well_formed (q : UpdateQuery) (r : Poll.row) :
  set_question q <> "" -> 2 <= length (set_options q) ->
  Forall (fun o => o <> "") (set_options q) ->
  well_formed_poll r -> well_formed_poll (apply_update q r).
Proof.
  intros Hq Hl Hf Hr. unfold apply_update.
  destruct (matches (filters q) r); [|exact Hr].
  unfold well_formed_poll. simpl. auto.
Qed.

Lemma serve_well_formed (a : ServerAction) (env : Env) (db : Database) :
  Forall well_formed_poll (polls db) ->
  Forall well_formed_poll (polls (serve a env db)).
Proof.
  intros Hwf.
  assert (Hupd : forall formData question (q : UpdateQuery),
            valid_form formData -> get "question" formData = Some question ->
            set_question q = question ->
            set_options q = filter truthy (getAll "options" formData) ->
            Forall well_formed_poll (map (apply_update q) (polls db))).
  { intros formData question q [[q' [Hq' Hne]] Hlen] Hq Hsq Hso.
    assert (q' = question) by congruence. subst q'.
    apply Forall_forall. intros r' Hin. apply in_map_iff in Hin.
    destruct Hin as [r [<- Hin]].
    apply apply_update_well_formed.
    - now rewrite Hsq.
    - now rewrite Hso.
    - rewrite Hso. apply Forall_forall. intros o Ho. apply filter_In in Ho.
      now apply truthy_true.
    - rewrite Forall_forall in Hwf. now apply Hwf. }
  destruct (serve_polls_cases a env db)
    as [-> | [[pid [idx ->]] | [[c [fd [Hv [_ ->]]]] |
       [[u [p [id [_ [_ [_ ->]]]]]] |
        [u [p [pid [fd [q [_ [Hv [Hq [_ Hcase]]]]]]]]]]]]]; simpl; auto.
  - apply Forall_app. split; [exact Hwf|].
    constructor; [now apply created_poll_well_formed | constructor].
  - apply Forall_forall. intros r Hin. apply filter_In in Hin.
    rewrite Forall_forall in Hwf. now apply Hwf.
  - destruct Hcase as [[_ ->] | [_ [_ ->]]]; simpl;
      now apply (Hupd fd q).
Qed.

(** X6. Polls stay as the form check leaves them. When every stored poll
    has a question that is not empty and at least two options, none of them
    empty, the same holds after any sequence of requests, whoever sends them
    and whichever storage requests fail. *)
Theorem polls_stay_well_formed (requests : list (ServerAction * Env))
    (db : Database) :
  Forall well_formed_poll (polls db) ->
  Forall well_formed_poll (polls (serve_all requests db)).
Proof.
  revert db. induction requests as [|[a env] rest IH]; intros db Hwf.
  - exact Hwf.
  - simpl. apply IH. now apply serve_well_formed.
Qed.

Lemma polls_stay_well_formed_witness :
  let requests :=
    [(CreatePoll (Sample.form "Q" ["a"; ""; "b"]),
      Sample.as_user (Some "u2"));
     (UpdatePoll "p1" (Sample.form "New" [""; "x"; "y"]),
      Sample.as_user (Some "u1"));
     (UpdatePoll "p1" (Sample.form "Bad" ["x"; ""]),
      Sample.as_user (Some "u1"))] in
  Forall well_formed_poll (polls Sample.db0) /\
  Forall well_formed_poll (polls (serve_all requests Sample.db0)).
Proof.
  assert (H0 : Forall well_formed_poll (polls Sample.db0)).
  { repeat constructor; simpl; try discriminate. }
  split; [exact H0|].
  exact (polls_stay_well_formed _ Sample.db0 H0).
Defined.

Lemma filter_map_fixed {A} (f : A -> bool) (g : A -> A) (l : list A) :
  (forall x, In x l -> f (g x) = f x) ->
  (forall x, In x l -> f x = true -> g x = x) ->
  filter f (map g l) = filter f l.
Proof.
  induction l as [|x l IH]; intros H1 H2; simpl; [reflexivity|].
  rewrite (H1 x (or_introl eq_refl)).
  rewrite IH;
    [| intros; apply H1; simpl; auto | intros; apply H2; simpl; auto].
  destruct (f x) eqn:E; [|reflexivity].
  now rewrite (H2 x (or_introl eq_refl) E).
Qed.

Lemma filter_filter_same {A} (f g : A -> bool) (l : list A) :
  (forall x, In x l -> f x = true -> g x = true) ->
  filter f (filter g l) = filter f l.
Proof.
  induction l as [|x l IH]; intros H; simpl; [reflexivity|].
  rewrite <- IH by (intros; apply H; simpl; auto).
  destruct (g x) eqn:Eg; simpl; [reflexivity|].
  destruct (f x) eqn:Ef; [|reflexivity].
  rewrite (H x (or_introl eq_refl) Ef) in Eg. discriminate.
Qed.

(** X8. A caller without the [admin] role claim, and a request without a
    caller, never change or remove a poll of somebody else: whatever the
    request, the polls that are not the caller's are, row by row and in
    order, what they were. *)
Theorem non_admin_leaves_others_polls (a : ServerAction) (env : Env)
    (db : Database) :
  not_admin env db ->
  others_polls (user (getUser env)) (serve a env db) =
  others_polls (user (getUser env)) db.
Proof.
  intros Hna. unfold others_polls.
  destruct (serve_polls_cases a env db)
    as [-> | [[pid [idx ->]] | [[c [fd [_ [Hu ->]]]] |
       [[u [p [id [Hu [Hp [Ha ->]]]]]] |
        [u [p [pid [fd [q [Hu [_ [_ [Hp Hcase]]]]]]]]]]]]]; simpl;
    try reflexivity.
  - rewrite Hu, filter_app. simpl. rewrite String.eqb_refl. simpl.
    apply app_nil_r.
  - rewrite Hu. destruct Ha as [Ho | Ha]; [|now destruct (Hna u Hu)].
    apply filter_filter_same. intros r Hin Hr.
    destruct (Poll.id r =? id) eqn:E; [|reflexivity].
    apply String.eqb_eq in E.
    assert (Hrp : In r (polls_with_id db id))
      by (apply polls_with_id_In; auto).
    rewrite Hp in Hrp. destruct Hrp as [<-|[]].
    rewrite Ho, String.eqb_refl in Hr. discriminate.
  - rewrite Hu.
    destruct Hcase as [[Ho ->] | [_ [Ha _]]]; [|now destruct (Hna u Hu)].
    simpl. apply filter_map_fixed.
    + intros r _. now destruct (apply_update_frame
        (update_by_id_and_owner pid q
           (filter truthy (getAll "options" fd)) (User.id u)) r)
        as [_ [-> _]].
    + intros r _ Hr. unfold apply_update.
      replace (matches _ r) with false; [reflexivity|].
      unfold matches. simpl. unfold eq_text.
      apply negb_true_iff in Hr. rewrite Hr.
      now destruct (Poll.id r =? pid).
Qed.

Lemma non_admin_leaves_others_polls_witness :
  not_admin (Sample.as_user (Some "u2")) Sample.db0 /\
  others_polls (Some {| User.id := "u2" |})
    (serve (DeletePoll "p1") (Sample.as_user (Some "u2")) Sample.db0) =
  [Sample.p1].
Proof.
  assert (Hna : not_admin (Sample.as_user (Some "u2")) Sample.db0).
  { intros u Hu. inversion Hu; subst. discriminate. }
  split; [exact Hna|].
  exact (non_admin_leaves_others_polls (DeletePoll "p1")
           (Sample.as_user (Some "u2")) Sample.db0 Hna).
Defined.

Lemma serve_one_vote (a : ServerAction) (env : Env) (db : Database) :
  genuine_faults env -> one_vote_per_voter db ->
  one_vote_per_voter (serve a env db).
Proof.
  intros Hg Hinv. destruct a; simpl.
  - eapply one_vote_per_voter_votes; [apply createPoll_votes | exact Hinv].
  - now rewrite getUserPolls_database.
  - now rewrite getPollById_database.
  - now apply submitVote_one_vote.
  - eapply one_vote_per_voter_votes; [apply deletePoll_votes | exact Hinv].
  - eapply one_vote_per_voter_votes; [apply updatePoll_votes | exact Hinv].
Qed.

(** X9. At most one vote per voter and poll is kept by every sequence of
    requests: when no voter has two votes on one poll, no voter has after
    the requests, as long as a failing select on [votes] does not report the
    code [PGRST116], which is the one of [.single()] for "no row". *)
Theorem requests_keep_one_vote_per_voter
    (requests : list (ServerAction * Env)) (db : Database) :
  Forall (fun request => genuine_faults (snd request)) requests ->
  one_vote_per_voter db ->
  one_vote_per_voter (serve_all requests db).
Proof.
  revert db. induction requests as [|[a env] rest IH]; intros db Hg Hinv.
  - exact Hinv.
  - inversion Hg as [|? ? Hg1 Hg2]; subst. simpl.
    apply IH; [exact Hg2|]. now apply serve_one_vote.
Qed.

Lemma requests_keep_one_vote_per_voter_witness :
  let requests :=
    [(SubmitVote "p1" 0, Sample.as_user (Some "u2"));
     (SubmitVote "p1" 1, Sample.as_user (Some "u2"));
     (SubmitVote "p1" 1, Sample.as_user (Some "u1"))] in
  Forall (fun request => genuine_faults (snd request)) requests /\
  one_vote_per_voter Sample.db0 /\
  length (votes_of (serve_all requests Sample.db0) "p1" "u2") <= 1.
Proof.
  assert (Hg : Forall (fun request => genuine_faults (snd request))
    [(SubmitVote "p1" 0, Sample.as_user (Some "u2"));
     (SubmitVote "p1" 1, Sample.as_user (Some "u2"));
     (SubmitVote "p1" 1, Sample.as_user (Some "u1"))]).
  { repeat constructor; intros e He; discriminate. }
  assert (H0 : one_vote_per_voter Sample.db0).
  { intros pid uid. simpl. lia. }
  split; [exact Hg|]. split; [exact H0|].
  exact (requests_keep_one_vote_per_voter _ Sample.db0 Hg H0 "p1" "u2").
Defined.

(** X10. No request touches [profiles]: after any sequence of requests
    the table is what it was, so nobody's role claim is gained or lost by
    using the server actions. *)
Theorem requests_keep_profiles (requests : list (ServerAction * Env))
    (db : Database) (env : Env) (uid : string) :
  profiles (serve_all requests db) = profiles db /\
  role_claim env (serve_all requests db) uid = role_claim env db uid.
Proof.
  assert (H : profiles (serve_all requests db) = profiles db).
  { revert db. induction requests as [|[a env'] rest IH]; intros db.
    - reflexivity.
    - simpl. rewrite IH.
      destruct (serve_polls_cases a env' db)
        as [-> | [[pid [idx ->]] | [[c [fd [_ [_ ->]]]] |
           [[u [p [id [_ [_ [_ ->]]]]]] |
            [u [p [pid [fd [q [_ [_ [_ [_ Hcase]]]]]]]]]]]]];
        try reflexivity.
      destruct Hcase as [[_ ->] | [_ [_ ->]]]; reflexivity. }
  split; [exact H|]. unfold role_claim, profiles_of. now rewrite H.
Qed.

(** ** The caller's polls, all of them and in order *)

Lemma insert_desc_perm (p : Poll.row) (l : list Poll.row) :
  Permutation (insert_desc p l) (p :: l).
Proof.
  induction l as [|q l IH]; simpl; [reflexivity|].
  destruct (Poll.created_at q <? Poll.created_at p)%Z; [reflexivity|].
  rewrite IH. apply perm_swap.
Qed.

Lemma order_created_at_desc_perm (l : list Poll.row) :
  Permutation (order_created_at_desc l) l.
Proof.
  unfold order_created_at_desc.
  induction l as [|p l IH]; simpl; [reflexivity|].
  rewrite insert_desc_perm. now constructor.
Qed.

Lemma order_created_at_desc_sorted (l : list Poll.row) :
  StronglySorted (fun a b => (Poll.created_at b <= Poll.created_at a)%Z)
    (order_created_at_desc l).
Proof.
  unfold order_created_at_desc.
  induction l as [|p l IH]; simpl; [constructor|].
  now apply insert_desc_sorted.
Qed.

(** X7. For a caller, when the select does not fail, [getUserPolls]
    answers without error a rearrangement of exactly the stored polls whose
    owner is the caller, each as often as it is stored, with no poll of
    anybody else, and in it no poll comes before a newer one. *)
Theorem getUserPolls_own_polls_newest_first (env : Env) (db : Database)
    (caller : User.t) :
  user (getUser env) = Some caller ->
  fault env Polls Select = None ->
  let listed := fst (result (getUserPolls env db)) in
  snd (result (getUserPolls env db)) = None /\
  Permutation listed
    (filter (fun r => Poll.user_id r =? User.id caller) (polls db)) /\
  (forall p, In p listed <->
             In p (polls db) /\ Poll.user_id p = User.id caller) /\
  StronglySorted (fun a b => (Poll.created_at b <= Poll.created_at a)%Z)
    listed.
Proof.
  intros Hu Hs. unfold getUserPolls. run_action. rewrite Hu. simpl.
  unfold select_polls_ordered, request. rewrite Hs. simpl.
  rewrite filter_matches_one. unfold eq_text.
  pose proof (order_created_at_desc_perm
    (filter (fun r => Poll.user_id r =? User.id caller) (polls db))) as Hperm.
  split; [reflexivity|]. split; [exact Hperm|]. split.
  - intros p. split.
    + intros Hin. apply (Permutation_in _ Hperm) in Hin.
      apply filter_In in Hin. destruct Hin as [Hin He].
      now apply String.eqb_eq in He.
    + intros [Hin He]. apply (Permutation_in _ (Permutation_sym Hperm)).
      apply filter_In. split; [exact Hin | now apply String.eqb_eq].
  - apply order_created_at_desc_sorted.
Qed.

Lemma getUserPolls_own_polls_newest_first_witness :
  let older := {| Poll.id := "p0"; Poll.user_id := "u1";
                  Poll.question := "Older?"; Poll.options := ["y"; "n"];
                  Poll.created_at := 0 |} in
  let other := {| Poll.id := "p2"; Poll.user_id := "u2";
                  Poll.question := "Other?"; Poll.options := ["y"; "n"];
                  Poll.created_at := 5 |} in
  let db := with_polls Sample.db0 [older; other; Sample.p1] in
  user (getUser (Sample.as_user (Some "u1"))) = Some {| User.id := "u1" |} /\
  fault (Sample.as_user (Some "u1")) Polls Select = None /\
  fst (result (getUserPolls (Sample.as_user (Some "u1")) db)) =
    [Sample.p1; older] /\
  StronglySorted (fun a b => (Poll.created_at b <= Poll.created_at a)%Z)
    (fst (result (getUserPolls (Sample.as_user (Some "u1")) db))).
Proof.
  simpl. split; [reflexivity|]. split; [reflexivity|].
  split; [reflexivity|].
  exact (proj2 (proj2 (proj2 (getUserPolls_own_polls_newest_first
    (Sample.as_user (Some "u1"))
    (with_polls Sample.db0
       [{| Poll.id := "p0"; Poll.user_id := "u1";
           Poll.question := "Older?"; Poll.options := ["y"; "n"];
           Poll.created_at := 0 |};
        {| Poll.id := "p2"; Poll.user_id := "u2";
           Poll.question := "Other?"; Poll.options := ["y"; "n"];
           Poll.created_at := 5 |}; Sample.p1])
    {| User.id := "u1" |} eq_refl eq_refl)))).
Defined.

(** ** The auth provider *)

Lemma AuthProvider_on_agree (p : AuthProvider) (e : AuthEvent) :
  (forall s, AuthContext.session (context p) = Some s ->
             AuthContext.user (context p) = Some (Session.user s)) ->
  forall s, AuthContext.session (context (AuthProvider_on p e)) = Some s ->
            AuthContext.user (context (AuthProvider_on p e)) =
              Some (Session.user s).
Proof.
  intros Hp s. destruct e as [response|session|]; simpl.
  - destruct (mounted p); simpl; [discriminate | apply Hp].
  - destruct (mounted p); simpl; [|apply Hp]. now intros ->.
  - apply Hp.
Qed.

(** X11. Whatever happens to the provider, the user it hands out is the
    user of the session it hands out, whenever it hands out a session. *)
Theorem AuthProvider_user_of_session (events : list AuthEvent)
    (s : Session.t) :
  AuthContext.session (context (AuthProvider_after events)) = Some s ->
  AuthContext.user (context (AuthProvider_after events)) =
    Some (Session.user s).
Proof.
  unfold AuthProvider_after. revert s.
  assert (H : forall p,
    (forall s, AuthContext.session (context p) = Some s ->
               AuthContext.user (context p) = Some (Session.user s)) ->
    forall s,
      AuthContext.session (context (fold_left AuthProvider_on events p)) =
        Some s ->
      AuthContext.user (context (fold_left AuthProvider_on events p)) =
        Some (Session.user s)).
  { induction events as [|e rest IH]; intros p Hp; simpl; [exact Hp|].
    apply IH. now apply AuthProvider_on_agree. }
  apply H. simpl. discriminate.
Qed.

Lemma AuthProvider_user_of_session_witness :
  let s := {| Session.user := {| User.id := "u1" |} |} in
  let events :=
    [GetUserResolved {| user := None; userError := None |};
     AuthStateChange (Some s)] in
  AuthContext.session (context (AuthProvider_after events)) = Some s /\
  AuthContext.user (context (AuthProvider_after events)) =
    Some {| User.id := "u1" |}.
Proof.
  split; [reflexivity|].
  exact (AuthProvider_user_of_session
           [GetUserResolved {| user := None; userError := None |};
            AuthStateChange (Some {| Session.user := {| User.id := "u1" |} |})]
           {| Session.user := {| User.id := "u1" |} |} eq_refl).
Defined.

Lemma AuthProvider_loading_from (events : list AuthEvent) (p : AuthProvider) :
  AuthContext.loading (context (fold_left AuthProvider_on events p)) = false
  <->
  AuthContext.loading (context p) = false \/
  (mounted p = true /\
   exists before response after,
     events = before ++ GetUserResolved response :: after /\
     ~ In Cleanup before).
Proof.
  revert p. induction events as [|e rest IH]; intros p; simpl.
  - split; [auto|]. intros [H|[_ [b [r [a [H _]]]]]]; [exact H|].
    destruct b; discriminate.
  - rewrite IH. destruct e as [response|session|]; simpl.
    + destruct (mounted p) eqn:Hm; simpl.
      * split; [|auto]. intros _. right. split; [reflexivity|].
        exists [], response, rest. auto.
      * split; (intros [H|[H _]]; [now left | congruence]).
    + destruct (mounted p) eqn:Hm; simpl.
      * split; (intros [H|[H1 [b [r [a [H2 H3]]]]]]; [now left | right]);
          (split; [reflexivity|]).
        -- exists (AuthStateChange session :: b), r, a. split.
           ++ now rewrite H2.
           ++ intros [H|H]; [discriminate | now apply H3].
        -- destruct b as [|e b]; [discriminate|].
           inversion H2; subst. exists b, r, a. split; [reflexivity|].
           intros H. apply H3. now right.
      * split; (intros [H|[H _]]; [now left | congruence]).
    + split; (intros [H|[H1 [b [r [a [H2 H3]]]]]]; [now left| ]).
      * discriminate.
      * destruct b as [|e b]; [discriminate|].
        inversion H2; subst. destruct H3. now left.
Qed.

(** X12. The provider stops loading exactly when the first [getUser]
    answers before the effect is cleaned up: [loading] is [false] after a
    sequence of events if and only if some [getUser] answer in it has no
    clean-up before it. Changes of the auth state alone never end the
    loading, and nothing starts it again. *)
Theorem AuthProvider_loading_ends_with_getUser (events : list AuthEvent) :
  AuthContext.loading (context (AuthProvider_after events)) = false <->
  exists before response after,
    events = before ++ GetUserResolved response :: after /\
    ~ In Cleanup before.
Proof.
  unfold AuthProvider_after. rewrite AuthProvider_loading_from. simpl.
  split.
  - intros [H|[_ H]]; [discriminate | exact H].
  - intros H. right. auto.
Qed.

Lemma mounted_without_cleanup (events : list AuthEvent) (p : AuthProvider) :
  ~ In Cleanup events -> mounted p = true ->
  mounted (fold_left AuthProvider_on events p) = true.
Proof.
  revert p. induction events as [|e rest IH]; intros p Hn Hm; simpl;
    [exact Hm|].
  apply IH.
  - intros H. apply Hn. now right.
  - destruct e; simpl; rewrite ?Hm; simpl; auto.
    destruct Hn. now left.
Qed.

(** X13. The answer of the first [getUser] overrides what the listener
    delivered before it: when it arrives, before any clean-up, the context
    has the user of the answer, no session, even if the listener had
    delivered one, and is not loading. *)
Theorem AuthProvider_getUser_resets_session (before : list AuthEvent)
    (response : AuthResponse) :
  ~ In Cleanup before ->
  context (AuthProvider_after (before ++ [GetUserResolved response])) =
  {| AuthContext.session := None;
     AuthContext.user := user response;
     AuthContext.loading := false |}.
Proof.
  intros Hn. unfold AuthProvider_after. rewrite fold_left_app. simpl.
  now rewrite (mounted_without_cleanup before AuthProvider_mount Hn eq_refl).
Qed.

Lemma AuthProvider_getUser_resets_session_witness :
  let s := {| Session.user := {| User.id := "u1" |} |} in
  ~ In Cleanup [AuthStateChange (Some s)] /\
  AuthContext.session
    (context (AuthProvider_after
                [AuthStateChange (Some s);
                 GetUserResolved
                   {| user := Some {| User.id := "u1" |};
                      userError := None |}])) = None.
Proof.
  assert (Hn : ~ In Cleanup
    [AuthStateChange (Some {| Session.user := {| User.id := "u1" |} |})]).
  { intros [H|[]]. discriminate. }
  split; [exact Hn|].
  exact (f_equal AuthContext.session
           (AuthProvider_getUser_resets_session _
              {| user := Some {| User.id := "u1" |}; userError := None |}
              Hn)).
Defined.

(** ** The admin page *)








